(** * cgLogger: the trigger-dispatching gorm logger (src/logger.go)

    A shallow embedding of the [customLogger] of package cgLogger and of its
    methods, and the properties of [Trace], [LogMode] and
    [SetSlowSqlThreshold].

    - A [*customLogger] is an address into a store of logger structs, so
      that methods with a pointer receiver (the trigger registrations,
      [SetSlowSqlThreshold], [LogMode]) act on the store, and the methods
      with a value receiver ([Trace], [Info], [Warn], [Error]) read a copy.
    - What [Trace] does is a list of events, in program order: the calls of
      host callbacks and the [Printf] calls on the injected [Writer].
      Callbacks are host code; they are assumed to return (a panic inside
      one unwinds [Trace], which recovers nothing). *)

From stdpp Require Import base decidable option numbers list strings gmap.

#[local] Open Scope string_scope.
#[local] Open Scope Z_scope.

(** ** Values of the Go runtime the logger handles *)

(** [time.Duration]: a count of nanoseconds ([int64]). *)
Abbreviation Duration := Z (only parsing).

Module time.
Definition Nanosecond : Duration := 1.
Definition Microsecond : Duration := 1000 * Nanosecond.
Definition Millisecond : Duration := 1000 * Microsecond.
Definition Second : Duration := 1000 * Millisecond.
End time.

(** gorm's [logger.LogLevel] is an [int]; its four constants are declared
    [Silent LogLevel = iota + 1; Error; Warn; Info]. *)
Module lg.
Abbreviation LogLevel := Z (only parsing).
Definition Silent : LogLevel := 1.
Definition Error : LogLevel := 2.
Definition Warn : LogLevel := 3.
Definition Info : LogLevel := 4.
End lg.

(** Go [error] values, as far as [errors.Is] can tell them apart: a value
    made by [errors.New] is a pointer, identified by its address, and a
    wrapper ([fmt.Errorf] with [%w]) unwraps to the error it wraps. A nilable
    [error] is an [option error]. *)
Inductive error : Type :=
  | errors_New (addr : positive) (text : string)
  | fmt_Errorf (text : string) (wrapped : error).

#[global] Instance error_eq_dec : EqDecision error.
Proof. solve_decision. Defined.

(** The chain walk of [errors.Is] on two non-nil errors. *)
Fixpoint is_in_chain (err target : error) : bool :=
  bool_decide (err = target) ||
  match err with
  | errors_New _ _ => false
  | fmt_Errorf _ wrapped => is_in_chain wrapped target
  end.

(** [errors.Is]: with a nil on either side it is plain equality. *)
Definition errors_Is (err target : option error) : bool :=
  match err, target with
  | Some e, Some t => is_in_chain e t
  | _, _ => bool_decide (err = target)
  end.

(** [var ErrRecordNotFound = errors.New("record not found")] *)
Definition ErrRecordNotFound : error := errors_New 1 "record not found".

(** [float64(elapsed.Nanoseconds()) / 1e6]: the float is kept as the
    nanosecond count it is computed from. *)
Inductive float64 : Type :=
  | millis_of_nanos (nanos : Z).

(** ** Colors and format strings *)

Definition esc : string := String (Ascii.ascii_of_nat 27) "".
Definition nl : string := String (Ascii.ascii_of_nat 10) "".

Definition Reset : string := esc +:+ "[0m".
Definition Red : string := esc +:+ "[31m".
Definition Green : string := esc +:+ "[32m".
Definition Yellow : string := esc +:+ "[33m".
Definition Blue : string := esc +:+ "[34m".
Definition Magenta : string := esc +:+ "[35m".
Definition Cyan : string := esc +:+ "[36m".
Definition White : string := esc +:+ "[37m".
Definition BlueBold : string := esc +:+ "[34;1m".
Definition MagentaBold : string := esc +:+ "[35;1m".
Definition RedBold : string := esc +:+ "[31;1m".
Definition YellowBold : string := esc +:+ "[33;1m".

(** ** The data of the package *)

(** [GormInfos]: the data passed to the custom functions. *)
Record GormInfos : Type := mkGormInfos {
  Location : string;
  AffectedRows : Z;
  QueryDuration : float64;
  Sql : string;
  Err : option error;
}.

(** A host function [func(g GormInfos)], known by its name; a nil func is
    [None]. *)
Inductive func : Type :=
  | Func (name : string).

(** The injected [Writer], an interface value: a reference to the sink. *)
Inductive Writer : Type :=
  | WriterRef (addr : positive).

Record Config : Type := mkConfig {
  SlowThreshold : Duration;
  Colorful : bool;
  IgnoreRecordNotFoundError : bool;
  LogLevel : lg.LogLevel;
}.

(** [Execution] contains the methods to be held. *)
Record Execution : Type := mkExecution {
  always : option func;
  warns : option func;
  slowSqlTrigger : Duration;
  errors : option func;
  considerRecordNotFoundError : bool;
}.

Record customLogger : Type := mkCustomLogger {
  writer : Writer;
  config : Config;
  execution : Execution;
  infoStr : string;
  warnStr : string;
  errStr : string;
  traceStr : string;
  traceErrStr : string;
  traceWarnStr : string;
}.

#[global] Instance func_eq_dec : EqDecision func.
Proof. solve_decision. Defined.
#[global] Instance Writer_eq_dec : EqDecision Writer.
Proof. solve_decision. Defined.
#[global] Instance float64_eq_dec : EqDecision float64.
Proof. solve_decision. Defined.
#[global] Instance GormInfos_eq_dec : EqDecision GormInfos.
Proof. solve_decision. Defined.
#[global] Instance Config_eq_dec : EqDecision Config.
Proof. solve_decision. Defined.
#[global] Instance Execution_eq_dec : EqDecision Execution.
Proof. solve_decision. Defined.
#[global] Instance customLogger_eq_dec : EqDecision customLogger.
Proof. solve_decision. Defined.

(** Field assignments [l.F = v] on a struct value. *)
Definition set_SlowThreshold (t : Duration) (c : Config) : Config :=
  mkConfig t (Colorful c) (IgnoreRecordNotFoundError c) (LogLevel c).
Definition set_LogLevel (level : lg.LogLevel) (c : Config) : Config :=
  mkConfig (SlowThreshold c) (Colorful c) (IgnoreRecordNotFoundError c) level.

Definition set_always (f : option func) (e : Execution) : Execution :=
  mkExecution f (warns e) (slowSqlTrigger e) (errors e)
    (considerRecordNotFoundError e).
Definition set_warns (f : option func) (e : Execution) : Execution :=
  mkExecution (always e) f (slowSqlTrigger e) (errors e)
    (considerRecordNotFoundError e).
Definition set_slowSqlTrigger (d : Duration) (e : Execution) : Execution :=
  mkExecution (always e) (warns e) d (errors e)
    (considerRecordNotFoundError e).
Definition set_errors (f : option func) (e : Execution) : Execution :=
  mkExecution (always e) (warns e) (slowSqlTrigger e) f
    (considerRecordNotFoundError e).
Definition set_considerRecordNotFoundError (b : bool) (e : Execution)
  : Execution :=
  mkExecution (always e) (warns e) (slowSqlTrigger e) (errors e) b.

Definition with_config (f : Config → Config) (l : customLogger)
  : customLogger :=
  mkCustomLogger (writer l) (f (config l)) (execution l) (infoStr l)
    (warnStr l) (errStr l) (traceStr l) (traceErrStr l) (traceWarnStr l).
Definition with_execution (f : Execution → Execution) (l : customLogger)
  : customLogger :=
  mkCustomLogger (writer l) (config l) (f (execution l)) (infoStr l)
    (warnStr l) (errStr l) (traceStr l) (traceErrStr l) (traceWarnStr l).

(** ** What a call does: events *)

(** An [interface{}] argument of [Printf]. *)
Inductive value : Type :=
  | VString (s : string)
  | VInt64 (n : Z)
  | VFloat64 (x : float64)
  | VError (e : option error).

(** The three call sites of host callbacks in [Trace]. *)
Inductive trigger : Type :=
  | AlwaysSite
  | SlowSite
  | ErrorSite.

Inductive event : Type :=
  | Call (site : trigger) (f : func) (g : GormInfos)
  | Printf (w : Writer) (format : string) (args : list value).

#[global] Instance value_eq_dec : EqDecision value.
Proof. solve_decision. Defined.
#[global] Instance trigger_eq_dec : EqDecision trigger.
Proof. solve_decision. Defined.
#[global] Instance event_eq_dec : EqDecision event.
Proof. solve_decision. Defined.

(** ** The runtime [Trace] calls into

    Three things come from outside the package: the clock ([time.Since]),
    the call-site string ([utils.FileWithLineNum], the same for every call
    made inside one [Trace]), and the [String] method of [time.Duration]
    that [%v] uses. The methods take them as a parameter. *)
Record Runtime : Type := mkRuntime {
  time_Since : Z → Duration;
  FileWithLineNum : string;
  Duration_String : Duration → string;
}.

(** ** Constructor *)

(** The struct literal that [New] returns the address of. *)
Definition New_struct (w : Writer) (cfg : Config) : customLogger :=
  let infoStr := "%s" +:+ nl +:+ "[info] " in
  let warnStr := "%s" +:+ nl +:+ "[warn] " in
  let errStr := "%s" +:+ nl +:+ "[error] " in
  let traceStr := "%s" +:+ nl +:+ "[%.3fms] [rows:%v] %s" in
  let traceWarnStr := "%s %s" +:+ nl +:+ "[%.3fms] [rows:%v] %s" in
  let traceErrStr := "%s %s" +:+ nl +:+ "[%.3fms] [rows:%v] %s" in
  if Colorful cfg then
    let infoStr := Green +:+ "%s" +:+ nl +:+ Reset +:+ Green +:+ "[info] "
                   +:+ Reset in
    let warnStr := BlueBold +:+ "%s" +:+ nl +:+ Reset +:+ Magenta
                   +:+ "[warn] " +:+ Reset in
    let errStr := Magenta +:+ "%s" +:+ nl +:+ Reset +:+ Red +:+ "[error] "
                  +:+ Reset in
    let traceStr := Green +:+ "%s" +:+ nl +:+ Reset +:+ Yellow
                    +:+ "[%.3fms] " +:+ BlueBold +:+ "[rows:%v]" +:+ Reset
                    +:+ " %s" in
    let traceWarnStr := Green +:+ "%s " +:+ Yellow +:+ "%s" +:+ nl +:+ Reset
                        +:+ RedBold +:+ "[%.3fms] " +:+ Yellow
                        +:+ "[rows:%v]" +:+ Magenta +:+ " %s" +:+ Reset in
    let traceErrStr := RedBold +:+ "%s " +:+ MagentaBold +:+ "%s" +:+ nl
                       +:+ Reset +:+ Yellow +:+ "[%.3fms] " +:+ BlueBold
                       +:+ "[rows:%v]" +:+ Reset +:+ " %s" in
    mkCustomLogger w cfg (mkExecution None None 0 None false)
      infoStr warnStr errStr traceStr traceErrStr traceWarnStr
  else
    mkCustomLogger w cfg (mkExecution None None 0 None false)
      infoStr warnStr errStr traceStr traceErrStr traceWarnStr.

(** The store of [customLogger] structs; a [*customLogger] is a key of it.
    Dereferencing an address the store does not hold (a nil receiver)
    panics: the operation gives [None]. *)
Abbreviation store := (gmap positive customLogger).

(** [New]: allocate the struct. *)
Definition New (w : Writer) (cfg : Config) (σ : store)
  : positive * store :=
  let p := fresh (dom σ) in
  (p, <[p := New_struct w cfg]> σ).

(** [Default]'s configuration; its writer is
    [log.New(os.Stdout, "\r\n", log.LstdFlags)]. *)
Definition Default_config : Config :=
  mkConfig (200 * time.Millisecond) true false lg.Warn.
Definition Default : positive * store :=
  New (WriterRef 1) Default_config ∅.

(** ** Methods with a pointer receiver *)

(** [l.Config.SlowThreshold = t] *)
Definition SetSlowSqlThreshold (l : positive) (t : Duration) (σ : store)
  : option store :=
  cl ← σ !! l;
  Some (<[l := with_config (set_SlowThreshold t) cl]> σ).

(** [newLogger := *l; newLogger.LogLevel = level; return &newLogger] *)
Definition LogMode (l : positive) (level : lg.LogLevel) (σ : store)
  : option (positive * store) :=
  cl ← σ !! l;
  let newLogger := with_config (set_LogLevel level) cl in
  let p := fresh (dom σ) in
  Some (p, <[p := newLogger]> σ).

(** [FixTriggers] returns the receiver behind the narrower interface. *)
Definition FixTriggers (l : positive) : positive := l.

(** [l.always = f; return l] *)
Definition AlwaysTrigger (l : positive) (f : option func) (σ : store)
  : option (positive * store) :=
  cl ← σ !! l;
  Some (l, <[l := with_execution (set_always f) cl]> σ).

(** [l.warns = f; l.slowSqlTrigger = duration; return l] *)
Definition SlowTrigger (l : positive) (f : option func) (duration : Duration)
    (σ : store) : option (positive * store) :=
  cl ← σ !! l;
  Some (l, <[l := with_execution (set_slowSqlTrigger duration)
                    (with_execution (set_warns f) cl)]> σ).

(** [l.errors = f; return l] *)
Definition ErrorTrigger (l : positive) (f : option func) (σ : store)
  : option (positive * store) :=
  cl ← σ !! l;
  Some (l, <[l := with_execution (set_errors f) cl]> σ).

(** [l.considerRecordNotFoundError = b; return l] *)
Definition ConsiderNotFound (l : positive) (b : bool) (σ : store)
  : option (positive * store) :=
  cl ← σ !! l;
  Some (l, <[l := with_execution (set_considerRecordNotFoundError b) cl]> σ).

(** ** Methods with a value receiver *)

(** [Info], [Warn], [Error]: print the message when the level allows. *)
Definition Info (rt : Runtime) (l : customLogger) (msg : string)
    (data : list value) : list event :=
  if bool_decide (lg.Info ≤ LogLevel (config l)) then
    [Printf (writer l) (infoStr l +:+ msg)
       (VString (FileWithLineNum rt) :: data)]
  else [].

Definition Warn (rt : Runtime) (l : customLogger) (msg : string)
    (data : list value) : list event :=
  if bool_decide (lg.Warn ≤ LogLevel (config l)) then
    [Printf (writer l) (warnStr l +:+ msg)
       (VString (FileWithLineNum rt) :: data)]
  else [].

Definition Error (rt : Runtime) (l : customLogger) (msg : string)
    (data : list value) : list event :=
  if bool_decide (lg.Error ≤ LogLevel (config l)) then
    [Printf (writer l) (errStr l +:+ msg)
       (VString (FileWithLineNum rt) :: data)]
  else [].

(** [Trace] prints the sql message and executes, in this order,
    AlwaysTrigger, SlowTrigger, ErrorTrigger. The [ctx] argument is unused
    in the source and left out. *)
Definition Trace (rt : Runtime) (l : customLogger) (begin : Z)
    (fc : unit → string * Z) (err : option error) : list event :=
  let '(sql, rows) := fc () in
  let elapsed := time_Since rt begin in
  let slowSql := bool_decide (SlowThreshold (config l) < elapsed)
                 && bool_decide (SlowThreshold (config l) ≠ 0) in
  let g := mkGormInfos (FileWithLineNum rt) rows (millis_of_nanos elapsed)
             sql err in
  (match always (execution l) with
   | Some f => [Call AlwaysSite f g]
   | None => []
   end) ++
  (if bool_decide (slowSqlTrigger (execution l) ≠ 0)
      && bool_decide (slowSqlTrigger (execution l) < elapsed)
   then match warns (execution l) with
        | Some f => [Call SlowSite f g]
        | None => []
        end
   else []) ++
  (if bool_decide (err ≠ None)
      && (negb (errors_Is err (Some ErrRecordNotFound))
          || considerRecordNotFoundError (execution l))
   then match errors (execution l) with
        | Some f => [Call ErrorSite f g]
        | None => []
        end
   else []) ++
  if bool_decide (LogLevel (config l) ≤ lg.Silent) then []
  else if bool_decide (err ≠ None)
          && bool_decide (lg.Error ≤ LogLevel (config l))
          && (negb (errors_Is err (Some ErrRecordNotFound))
              || negb (IgnoreRecordNotFoundError (config l)))
  then
    if bool_decide (rows = -1) then
      [Printf (writer l) (traceErrStr l)
         [VString (FileWithLineNum rt); VError err;
          VFloat64 (millis_of_nanos elapsed); VString "-"; VString sql]]
    else
      [Printf (writer l) (traceErrStr l)
         [VString (FileWithLineNum rt); VError err;
          VFloat64 (millis_of_nanos elapsed); VInt64 rows; VString sql]]
  else if slowSql && bool_decide (lg.Warn ≤ LogLevel (config l)) then
    let slowLog := "SLOW SQL >= "
                   +:+ Duration_String rt (SlowThreshold (config l)) in
    if bool_decide (rows = -1) then
      [Printf (writer l) (traceWarnStr l)
         [VString (FileWithLineNum rt); VString slowLog;
          VFloat64 (millis_of_nanos elapsed); VString "-"; VString sql]]
    else
      [Printf (writer l) (traceWarnStr l)
         [VString (FileWithLineNum rt); VString slowLog;
          VFloat64 (millis_of_nanos elapsed); VInt64 rows; VString sql]]
  else if bool_decide (LogLevel (config l) = lg.Info) then
    if bool_decide (rows = -1) then
      [Printf (writer l) (traceStr l)
         [VString (FileWithLineNum rt);
          VFloat64 (millis_of_nanos elapsed); VString "-"; VString sql]]
    else
      [Printf (writer l) (traceStr l)
         [VString (FileWithLineNum rt);
          VFloat64 (millis_of_nanos elapsed); VInt64 rows; VString sql]]
  else [].

(** [Trace] called through a [*customLogger]: the receiver is copied out of
    the store. *)
Definition Trace_at (rt : Runtime) (σ : store) (l : positive) (begin : Z)
    (fc : unit → string * Z) (err : option error) : option (list event) :=
  cl ← σ !! l;
  Some (Trace rt cl begin fc err).

(** ** Builder chains *)

(** One call of a registration method, as written in a chain such as
    [Default.ErrorTrigger(f).AlwaysTrigger(g)]. *)
Inductive registration : Type :=
  | RegAlways (f : option func)
  | RegSlow (f : option func) (duration : Duration)
  | RegError (f : option func)
  | RegConsiderNotFound (b : bool).

Definition register (r : registration) (l : positive) (σ : store)
  : option (positive * store) :=
  match r with
  | RegAlways f => AlwaysTrigger l f σ
  | RegSlow f d => SlowTrigger l f d σ
  | RegError f => ErrorTrigger l f σ
  | RegConsiderNotFound b => ConsiderNotFound l b σ
  end.

(** A chain: each call is made on the pointer the previous one returned. *)
Fixpoint register_chain (rs : list registration) (l : positive) (σ : store)
  : option (positive * store) :=
  match rs with
  | [] => Some (l, σ)
  | r :: rs' =>
      match register r l σ with
      | Some (l', σ') => register_chain rs' l' σ'
      | None => None
      end
  end.

(** The same chain on the struct itself. *)
Definition register_struct (r : registration) (cl : customLogger)
  : customLogger :=
  match r with
  | RegAlways f => with_execution (set_always f) cl
  | RegSlow f d =>
      with_execution (set_slowSqlTrigger d) (with_execution (set_warns f) cl)
  | RegError f => with_execution (set_errors f) cl
  | RegConsiderNotFound b =>
      with_execution (set_considerRecordNotFoundError b) cl
  end.

(** ** Reading a list of events *)

Definition is_call (e : event) : bool :=
  match e with
  | Call _ _ _ => true
  | Printf _ _ _ => false
  end.

Definition is_line (e : event) : bool :=
  match e with
  | Call _ _ _ => false
  | Printf _ _ _ => true
  end.

(** The callback invocations of a run, in order. *)
Definition calls (es : list event) : list event := List.filter is_call es.

(** The formatted lines of a run, in order. *)
Definition lines (es : list event) : list event := List.filter is_line es.

(** The call sites that fired, in order. *)
Definition sites (es : list event) : list trigger :=
  omap (λ e, match e with Call s _ _ => Some s | Printf _ _ _ => None end) es.

(** The callback of call site [s] was invoked. *)
Definition fired (s : trigger) (es : list event) : Prop :=
  ∃ f g, Call s f g ∈ es.

(** An error-trace line: the error template, filled with the location, the
    error, the duration, the rows and the statement. (Without colors the
    error and the warn template are the same string; the second argument
    tells the two lines apart.) *)
Definition is_error_trace (l : customLogger) (e : event) : bool :=
  match e with
  | Printf _ format [VString _; VError _; VFloat64 _; _; VString _] =>
      bool_decide (format = traceErrStr l)
  | _ => false
  end.

(** The argument a line passes for the [[rows:%v]] placeholder: the
    last but one. *)
Definition rows_argument (e : event) : option value :=
  match e with
  | Printf _ _ args => args !! (length args - 2)%nat
  | Call _ _ _ => None
  end.

(** ** The format branches, as the specification words them *)

Inductive branch : Type :=
  | ErrorBranch
  | SlowBranch
  | InfoBranch.

(** Error branch: [err != nil] and level ≥ Error and (not not-found or not
    ignoring not-found). *)
Definition spec_error_branch (l : customLogger) (err : option error) : Prop :=
  err ≠ None ∧ lg.Error ≤ LogLevel (config l)
  ∧ (errors_Is err (Some ErrRecordNotFound) = false
     ∨ IgnoreRecordNotFoundError (config l) = false).

(** Slow branch: elapsed > threshold, threshold ≠ 0, level ≥ Warn. *)
Definition spec_slow_branch (l : customLogger) (elapsed : Duration) : Prop :=
  SlowThreshold (config l) < elapsed ∧ SlowThreshold (config l) ≠ 0
  ∧ lg.Warn ≤ LogLevel (config l).

(** Info branch: level = Info exactly. *)
Definition spec_info_branch (l : customLogger) : Prop :=
  LogLevel (config l) = lg.Info.

#[global] Instance spec_error_branch_dec l err : Decision (spec_error_branch l err).
Proof. unfold spec_error_branch. apply _. Defined.
#[global] Instance spec_slow_branch_dec l elapsed : Decision (spec_slow_branch l elapsed).
Proof. unfold spec_slow_branch. apply _. Defined.
#[global] Instance spec_info_branch_dec l : Decision (spec_info_branch l).
Proof. unfold spec_info_branch. apply _. Defined.

(** Top to bottom, first match wins. *)
Definition spec_select_branch (l : customLogger) (elapsed : Duration)
    (err : option error) : option branch :=
  if decide (spec_error_branch l err) then Some ErrorBranch
  else if decide (spec_slow_branch l elapsed) then Some SlowBranch
  else if decide (spec_info_branch l) then Some InfoBranch
  else None.

(** A row count of -1 is the placeholder, any other the integer. *)
Definition spec_rows (rows : Z) : value :=
  if decide (rows = -1) then VString "-" else VInt64 rows.

(** The line of each branch. *)
Definition spec_branch_line (rt : Runtime) (l : customLogger) (b : branch)
    (elapsed : Duration) (sql : string) (rows : Z) (err : option error)
  : event :=
  match b with
  | ErrorBranch =>
      Printf (writer l) (traceErrStr l)
        [VString (FileWithLineNum rt); VError err;
         VFloat64 (millis_of_nanos elapsed); spec_rows rows; VString sql]
  | SlowBranch =>
      Printf (writer l) (traceWarnStr l)
        [VString (FileWithLineNum rt);
         VString ("SLOW SQL >= "
                  +:+ Duration_String rt (SlowThreshold (config l)));
         VFloat64 (millis_of_nanos elapsed); spec_rows rows; VString sql]
  | InfoBranch =>
      Printf (writer l) (traceStr l)
        [VString (FileWithLineNum rt);
         VFloat64 (millis_of_nanos elapsed); spec_rows rows; VString sql]
  end.

(** ** A runtime to run the model on

    Go's [time.Duration.String] (package time: [format], [fmtFrac],
    [fmtInt]), which writes the digits from the end of a buffer to its
    front; here each step puts its bytes in front of the string built so
    far. *)
Module go_time.

Definition digit (d : Z) : Ascii.ascii := Ascii.ascii_of_nat (Z.to_nat (48 + d)).

Fixpoint fmtInt_loop (fuel : nat) (buf : string) (v : Z) : string :=
  match fuel with
  | O => buf
  | S fuel' =>
      if bool_decide (0 < v)
      then fmtInt_loop fuel' (String (digit (v `mod` 10)) buf) (v `div` 10)
      else buf
  end.

(** A [uint64] has at most 20 decimal digits. *)
Definition fmtInt (buf : string) (v : Z) : string :=
  if bool_decide (v = 0) then String (digit 0) buf
  else fmtInt_loop 20 buf v.

Fixpoint fmtFrac_loop (prec : nat) (buf : string) (v : Z) (print : bool)
  : string * Z * bool :=
  match prec with
  | O => (buf, v, print)
  | S prec' =>
      let d := v `mod` 10 in
      let print := print || bool_decide (d ≠ 0) in
      fmtFrac_loop prec' (if print then String (digit d) buf else buf)
        (v `div` 10) print
  end.

Definition fmtFrac (buf : string) (v : Z) (prec : nat) : string * Z :=
  let '(buf, v, print) := fmtFrac_loop prec buf v false in
  (if print then "." +:+ buf else buf, v).

Definition micro : string :=
  String (Ascii.ascii_of_nat 194) (String (Ascii.ascii_of_nat 181) "").

Definition Duration_String (d : Duration) : string :=
  let neg := bool_decide (d < 0) in
  let u := if neg then - d else d in
  if bool_decide (u < time.Second) then
    if bool_decide (u = 0) then "0s"
    else
      let body :=
        if bool_decide (u < time.Microsecond) then fmtInt "ns" u
        else if bool_decide (u < time.Millisecond) then
          let '(buf, u) := fmtFrac (micro +:+ "s") u 3 in fmtInt buf u
        else
          let '(buf, u) := fmtFrac "ms" u 6 in fmtInt buf u in
      if neg then "-" +:+ body else body
  else
    let '(buf, u) := fmtFrac "s" u 9 in
    let buf := fmtInt buf (u `mod` 60) in
    let u := u `div` 60 in
    let body :=
      if bool_decide (0 < u) then
        let buf := fmtInt ("m" +:+ buf) (u `mod` 60) in
        let u := u `div` 60 in
        if bool_decide (0 < u) then fmtInt ("h" +:+ buf) u else buf
      else buf in
    if neg then "-" +:+ body else body.

End go_time.

(** A clock that reads [now], a fixed call site, Go's duration printer. *)
Definition runtime_at (now : Z) : Runtime :=
  mkRuntime (λ begin, now - begin) "main.go:42" go_time.Duration_String.

(** Sample data for the examples. *)
Definition stdout : Writer := WriterRef 1.
Definition plain_config (level : lg.LogLevel) : Config :=
  mkConfig (200 * time.Millisecond) false false level.
Definition select_users (rows : Z) : unit → string * Z :=
  λ _, ("SELECT * FROM users", rows).
Definition all_triggers : Execution :=
  mkExecution (Some (Func "always")) (Some (Func "slow"))
    (100 * time.Millisecond) (Some (Func "error")) false.

(** ** The dispatch steps, as the specification words them *)

(** The record built for the callbacks (step 3). *)
Definition trace_infos (rt : Runtime) (begin : Z) (fc : unit → string * Z)
    (err : option error) : GormInfos :=
  mkGormInfos (FileWithLineNum rt) (fc ()).2
    (millis_of_nanos (time_Since rt begin)) (fc ()).1 err.

(** Invoke a callback if it is set. *)
Definition fire (s : trigger) (f : option func) (g : GormInfos)
  : list event :=
  match f with
  | Some f => [Call s f g]
  | None => []
  end.

(** Step 5: [slowDuration != 0] and [elapsed > slowDuration]. *)
Definition spec_slow_trigger (l : customLogger) (elapsed : Duration) : Prop :=
  slowSqlTrigger (execution l) ≠ 0 ∧ slowSqlTrigger (execution l) < elapsed.

(** Step 6: [err != nil] and ([err] is not the not-found sentinel, or
    [considerNotFound == true]). *)
Definition spec_error_trigger (l : customLogger) (err : option error)
  : Prop :=
  err ≠ None
  ∧ (errors_Is err (Some ErrRecordNotFound) = false
     ∨ considerRecordNotFoundError (execution l) = true).

#[global] Instance spec_slow_trigger_dec l elapsed :
  Decision (spec_slow_trigger l elapsed).
Proof. unfold spec_slow_trigger. apply _. Defined.
#[global] Instance spec_error_trigger_dec l err :
  Decision (spec_error_trigger l err).
Proof. unfold spec_error_trigger. apply _. Defined.

(** Steps 4 to 6. *)
Definition spec_triggers (rt : Runtime) (l : customLogger) (begin : Z)
    (fc : unit → string * Z) (err : option error) : list event :=
  let g := trace_infos rt begin fc err in
  fire AlwaysSite (always (execution l)) g
  ++ (if decide (spec_slow_trigger l (time_Since rt begin))
      then fire SlowSite (warns (execution l)) g else [])
  ++ (if decide (spec_error_trigger l err)
      then fire ErrorSite (errors (execution l)) g else []).

(** Steps 7 to 9. *)
Definition spec_line (rt : Runtime) (l : customLogger) (begin : Z)
    (fc : unit → string * Z) (err : option error) : list event :=
  if decide (LogLevel (config l) ≤ lg.Silent) then []
  else
    match spec_select_branch l (time_Since rt begin) err with
    | Some b =>
        [spec_branch_line rt l b (time_Since rt begin) (fc ()).1 (fc ()).2
           err]
    | None => []
    end.

(** The events of a run but the calls made at one site. *)
Definition without_site (s : trigger) (es : list event) : list event :=
  List.filter
    (λ e, match e with
          | Call s' _ _ => negb (bool_decide (s' = s))
          | Printf _ _ _ => true
          end) es.

(** ** Vocabulary for the other methods *)

(** The field a registration method assigns: two registrations of the same
    method overwrite each other, two of different methods do not meet. *)
Definition slot (r : registration) : nat :=
  match r with
  | RegAlways _ => 0
  | RegSlow _ _ => 1
  | RegError _ => 2
  | RegConsiderNotFound _ => 3
  end.


(** The first character of a string literal. *)
Definition chr (s : string) : Ascii.ascii :=
  match s with
  | String c _ => c
  | EmptyString => Ascii.zero
  end.

(** The verbs of a format string, in order, as [fmt] scans them: after a
    [%] come flags, width and precision ([+-# 0123456789.]), then the verb
    character; [%%] is a literal percent sign. (No [*] and no argument
    index: the templates of [New] use neither.) *)
Definition is_flag (c : Ascii.ascii) : bool :=
  bool_decide (c ∈ String.list_ascii_of_string "+-# 0123456789.").

Fixpoint verbs_from (in_verb : bool) (s : string) : list Ascii.ascii :=
  match s with
  | EmptyString => []
  | String c s' =>
      if in_verb then
        if is_flag c then verbs_from true s'
        else if Ascii.eqb c (chr "%") then verbs_from false s'
        else c :: verbs_from false s'
      else if Ascii.eqb c (chr "%") then verbs_from true s'
      else verbs_from false s'
  end.

Definition verbs (format : string) : list Ascii.ascii :=
  verbs_from false format.

(** What a verb prints without a [%!verb(type=value)] complaint: [%v]
    takes anything, [%s] a string or a non-nil error, [%f] a float, [%d]
    an integer. *)
Definition verb_accepts (c : Ascii.ascii) (v : value) : bool :=
  if Ascii.eqb c (chr "v") then true
  else if Ascii.eqb c (chr "s") then
    match v with
    | VString _ | VError (Some _) => true
    | _ => false
    end
  else if Ascii.eqb c (chr "f") then
    match v with
    | VFloat64 _ => true
    | _ => false
    end
  else if Ascii.eqb c (chr "d") then
    match v with
    | VInt64 _ => true
    | _ => false
    end
  else false.

(** A call of [Printf] whose arguments are, one for one, what the verbs of
    its format take. *)
Definition well_formatted (e : event) : Prop :=
  match e with
  | Printf _ format args =>
      Forall2 (λ c v, verb_accepts c v = true) (verbs format) args
  | Call _ _ _ => True
  end.

(** A string without its color sequences (from the escape character to
    the next [m]). *)
Fixpoint uncolored_from (in_escape : bool) (s : string) : string :=
  match s with
  | EmptyString => EmptyString
  | String c s' =>
      if in_escape then uncolored_from (negb (Ascii.eqb c (chr "m"))) s'
      else if Ascii.eqb c (Ascii.ascii_of_nat 27) then uncolored_from true s'
      else String c (uncolored_from false s')
  end.

Definition uncolored (s : string) : string := uncolored_from false s.

(** The six templates of a logger. *)
Definition templates (l : customLogger) : list string :=
  [infoStr l; warnStr l; errStr l; traceStr l; traceErrStr l;
   traceWarnStr l].

(** The writer of each [Printf] of a run. *)
Definition writers (es : list event) : list Writer :=
  omap (λ e, match e with Printf w _ _ => Some w | Call _ _ _ => None end) es.

(** * Properties *)

(** ** The run of [Trace] is the steps of the specification *)

(** The tests of the source, as booleans, decide the conditions of the
    specification. *)
Lemma slow_trigger_test l elapsed :
  bool_decide (slowSqlTrigger (execution l) ≠ 0)
  && bool_decide (slowSqlTrigger (execution l) < elapsed)
  = bool_decide (spec_slow_trigger l elapsed).
Proof.
  unfold spec_slow_trigger.
  repeat case_bool_decide; simpl; tauto.
Qed.

Lemma error_trigger_test l err :
  bool_decide (err ≠ None)
  && (negb (errors_Is err (Some ErrRecordNotFound))
      || considerRecordNotFoundError (execution l))
  = bool_decide (spec_error_trigger l err).
Proof.
  unfold spec_error_trigger.
  repeat case_bool_decide;
    destruct (errors_Is err _) eqn:?, (considerRecordNotFoundError _) eqn:?;
    simpl; intuition congruence.
Qed.

Lemma error_branch_test l err :
  bool_decide (err ≠ None)
  && bool_decide (lg.Error ≤ LogLevel (config l))
  && (negb (errors_Is err (Some ErrRecordNotFound))
      || negb (IgnoreRecordNotFoundError (config l)))
  = bool_decide (spec_error_branch l err).
Proof.
  unfold spec_error_branch.
  repeat case_bool_decide;
    destruct (errors_Is err _) eqn:?, (IgnoreRecordNotFoundError _) eqn:?;
    simpl; intuition congruence.
Qed.

Lemma slow_branch_test l elapsed :
  bool_decide (SlowThreshold (config l) < elapsed)
  && bool_decide (SlowThreshold (config l) ≠ 0)
  && bool_decide (lg.Warn ≤ LogLevel (config l))
  = bool_decide (spec_slow_branch l elapsed).
Proof.
  unfold spec_slow_branch.
  repeat case_bool_decide; simpl; tauto.
Qed.

Lemma Trace_steps rt l begin fc err :
  Trace rt l begin fc err
  = (spec_triggers rt l begin fc err ++ spec_line rt l begin fc err)%list.
Proof.
  unfold Trace, spec_triggers, spec_line, spec_select_branch, trace_infos,
    spec_branch_line, fire.
  destruct (fc ()) as [sql rows]; simpl.
  rewrite slow_trigger_test, error_trigger_test, error_branch_test,
    slow_branch_test, <- !app_assoc.
  do 3 f_equal.
  - by rewrite decide_bool_decide.
  - by rewrite decide_bool_decide.
  - unfold spec_rows, spec_info_branch.
    rewrite !(decide_bool_decide (_ ≤ _)).
    rewrite !(decide_bool_decide (spec_error_branch _ _)).
    rewrite !(decide_bool_decide (spec_slow_branch _ _)).
    rewrite !(decide_bool_decide (_ = _)).
    by repeat case_bool_decide.
Qed.

(** ** Calls and lines of a run *)

Lemma Forall_is_call_triggers rt l begin fc err :
  Forall (λ e, is_call e = true) (spec_triggers rt l begin fc err).
Proof.
  unfold spec_triggers, fire.
  repeat first [case_decide | case_match]; simpl;
    repeat (constructor; try done).
Qed.

Lemma Forall_is_line_line rt l begin fc err :
  Forall (λ e, is_line e = true) (spec_line rt l begin fc err).
Proof.
  unfold spec_line.
  case_decide; [constructor|].
  destruct (spec_select_branch _ _ _) as [[]|]; repeat constructor.
Qed.

Lemma filter_all {A} (p : A → bool) (xs : list A) :
  Forall (λ x, p x = true) xs → List.filter p xs = xs.
Proof.
  induction 1 as [|x xs Hx _ IH]; simpl; [done|]. by rewrite Hx, IH.
Qed.

Lemma filter_none {A} (p : A → bool) (xs : list A) :
  Forall (λ x, p x = false) xs → List.filter p xs = [].
Proof.
  induction 1 as [|x xs Hx _ IH]; simpl; [done|]. by rewrite Hx.
Qed.

Lemma is_call_not_line (es : list event) :
  Forall (λ e, is_call e = true) es → Forall (λ e, is_line e = false) es.
Proof. intros H. eapply Forall_impl; [exact H|]. by intros []. Qed.

Lemma is_line_not_call (es : list event) :
  Forall (λ e, is_line e = true) es → Forall (λ e, is_call e = false) es.
Proof. intros H. eapply Forall_impl; [exact H|]. by intros []. Qed.

Lemma calls_Trace rt l begin fc err :
  calls (Trace rt l begin fc err) = spec_triggers rt l begin fc err.
Proof.
  unfold calls. rewrite Trace_steps, List.filter_app.
  rewrite (filter_all _ _ (Forall_is_call_triggers rt l begin fc err)).
  rewrite (filter_none _ _
             (is_line_not_call _ (Forall_is_line_line rt l begin fc err))).
  apply app_nil_r.
Qed.

Lemma lines_Trace rt l begin fc err :
  lines (Trace rt l begin fc err) = spec_line rt l begin fc err.
Proof.
  unfold lines. rewrite Trace_steps, List.filter_app.
  rewrite (filter_all _ _ (Forall_is_line_line rt l begin fc err)).
  by rewrite (filter_none _ _
             (is_call_not_line _ (Forall_is_call_triggers rt l begin fc err))).
Qed.

Lemma elem_of_fire s f g s' fo g' :
  Call s f g ∈ fire s' fo g' ↔ s = s' ∧ fo = Some f ∧ g = g'.
Proof.
  unfold fire. destruct fo as [f'|].
  - rewrite list_elem_of_singleton. split.
    + by intros [= -> -> ->].
    + by intros (-> & [= ->] & ->).
  - rewrite elem_of_nil. split; [done|]. by intros (_ & ? & _).
Qed.

Lemma call_not_in_line rt l begin fc err s f g :
  Call s f g ∉ spec_line rt l begin fc err.
Proof.
  intros Hin.
  by apply (proj1 (Forall_forall _ _) (Forall_is_line_line rt l begin fc err))
    in Hin.
Qed.

(** Which calls a run makes, and with what. *)
Lemma elem_of_Trace_call rt l begin fc err s f g :
  Call s f g ∈ Trace rt l begin fc err ↔
  g = trace_infos rt begin fc err
  ∧ match s with
    | AlwaysSite => always (execution l) = Some f
    | SlowSite =>
        spec_slow_trigger l (time_Since rt begin)
        ∧ warns (execution l) = Some f
    | ErrorSite =>
        spec_error_trigger l err ∧ errors (execution l) = Some f
    end.
Proof.
  rewrite Trace_steps, elem_of_app. unfold spec_triggers.
  rewrite !elem_of_app.
  split.
  - intros [[Hin|[Hin|Hin]]|Hin].
    + apply elem_of_fire in Hin as (-> & ? & ->). done.
    + case_decide; [|by apply elem_of_nil in Hin].
      apply elem_of_fire in Hin as (-> & ? & ->). done.
    + case_decide; [|by apply elem_of_nil in Hin].
      apply elem_of_fire in Hin as (-> & ? & ->). done.
    + by apply call_not_in_line in Hin.
  - intros [-> Hs]. left. destruct s.
    + left. by apply elem_of_fire.
    + right; left. destruct Hs as [Hc Hf].
      rewrite decide_True by done. by apply elem_of_fire.
    + right; right. destruct Hs as [Hc Hf].
      rewrite decide_True by done. by apply elem_of_fire.
Qed.

(** A line of a run is the line of the selected branch. *)
Lemma elem_of_Trace_line rt l begin fc err w format args :
  Printf w format args ∈ Trace rt l begin fc err ↔
  Printf w format args ∈ spec_line rt l begin fc err.
Proof.
  rewrite Trace_steps, elem_of_app. split; [|by right].
  intros [Hin|Hin]; [|done].
  by apply (proj1 (Forall_forall _ _)
              (Forall_is_call_triggers rt l begin fc err)) in Hin.
Qed.

(** ** The error callback *)

(** C1, as amended. In every [Trace] call whose error is the not-found
    sentinel ([errors.Is] says so; the sentinel itself is the first case)
    and whose logger has [considerRecordNotFoundError == false], the error
    callback is not invoked; and when the logger was built with
    [IgnoreRecordNotFoundError == true], no error-trace line is emitted,
    whatever the level. *)
Theorem C1_not_found_not_considered rt l begin fc err
    (Hnf : errors_Is err (Some ErrRecordNotFound) = true)
    (Hcons : considerRecordNotFoundError (execution l) = false) :
  ¬ fired ErrorSite (Trace rt l begin fc err)
  ∧ (IgnoreRecordNotFoundError (config l) = true →
     ∀ e, e ∈ Trace rt l begin fc err → is_error_trace l e = false).
Proof.
  split.
  - intros (f & g & Hin). apply elem_of_Trace_call in Hin.
    destruct Hin as (_ & (_ & [Hno|Hyes]) & _); congruence.
  - intros Hign [s f g|w format args] Hin; [done|].
    apply elem_of_Trace_line in Hin. unfold spec_line in Hin.
    case_decide; [by apply elem_of_nil in Hin|].
    unfold spec_select_branch in Hin.
    rewrite (decide_False (P := spec_error_branch l err)) in Hin.
    2: { intros (_ & _ & [?|?]); congruence. }
    repeat case_decide; try (by apply elem_of_nil in Hin);
      apply list_elem_of_singleton in Hin; simpl in Hin;
      injection Hin as -> -> ->; done.
Qed.

Lemma C1_not_found_not_considered_witness :
  let l := with_config (λ _, mkConfig 0 false true lg.Info)
             (with_execution (λ _, all_triggers)
                (New_struct stdout (plain_config lg.Info))) in
  let es := Trace (runtime_at 50) l 0 (select_users 0)
              (Some (fmt_Errorf "find user" ErrRecordNotFound)) in
  ¬ fired ErrorSite es
  ∧ (IgnoreRecordNotFoundError (config l) = true →
     ∀ e, e ∈ es → is_error_trace l e = false).
Proof.
  apply (C1_not_found_not_considered (runtime_at 50)); reflexivity.
Defined.

(** C1, as stated, fails: a logger that does not consider not-found errors
    and was built with [IgnoreRecordNotFoundError == false] (the zero value,
    and what [Default] has) prints the error-trace line for the sentinel at
    level Error. *)
Lemma C1_counterexample :
  let l := with_execution (λ _, all_triggers)
             (New_struct stdout (plain_config lg.Error)) in
  let es := Trace (runtime_at (50 * time.Millisecond)) l 0 (select_users 3)
              (Some ErrRecordNotFound) in
  considerRecordNotFoundError (execution l) = false
  ∧ lg.Error ≤ LogLevel (config l)
  ∧ es = [Call AlwaysSite (Func "always")
            (mkGormInfos "main.go:42" 3
               (millis_of_nanos (50 * time.Millisecond))
               "SELECT * FROM users" (Some ErrRecordNotFound));
          Printf stdout (traceErrStr l)
            [VString "main.go:42"; VError (Some ErrRecordNotFound);
             VFloat64 (millis_of_nanos (50 * time.Millisecond));
             VInt64 3; VString "SELECT * FROM users"]]
  ∧ ¬ (¬ fired ErrorSite es ∧ ∀ e, e ∈ es → is_error_trace l e = false).
Proof.
  cbv zeta. split; [reflexivity|]. split; [by vm_compute|].
  split; [reflexivity|].
  intros [_ Hno]. vm_compute in Hno.
  specialize (Hno _ (list_elem_of_further _ _ _ (list_elem_of_here _ _))).
  discriminate Hno.
Qed.

(** C2. In every [Trace] call the error callback is invoked exactly when
    [err != nil], and [err] is not the not-found sentinel or
    [considerRecordNotFoundError] is set, and an error callback is
    registered; it is then the registered function, called with the record
    of the statement. In particular, with [considerRecordNotFoundError ==
    true] and the sentinel as error, a registered error callback fires. *)
Theorem C2_error_callback_iff rt l begin fc err :
  (∀ f g, Call ErrorSite f g ∈ Trace rt l begin fc err ↔
          err ≠ None
          ∧ (errors_Is err (Some ErrRecordNotFound) = false
             ∨ considerRecordNotFoundError (execution l) = true)
          ∧ errors (execution l) = Some f
          ∧ g = trace_infos rt begin fc err)
  ∧ (fired ErrorSite (Trace rt l begin fc err) ↔
     err ≠ None
     ∧ (errors_Is err (Some ErrRecordNotFound) = false
        ∨ considerRecordNotFoundError (execution l) = true)
     ∧ errors (execution l) ≠ None)
  ∧ (∀ f, Call ErrorSite f
            (trace_infos rt begin fc (Some ErrRecordNotFound))
          ∈ Trace rt
              (with_execution (set_errors (Some f))
                 (with_execution (set_considerRecordNotFoundError true) l))
              begin fc (Some ErrRecordNotFound)).
Proof.
  split; [|split].
  - intros f g. rewrite elem_of_Trace_call. unfold spec_error_trigger. tauto.
  - unfold fired. split.
    + intros (f & g & Hin). apply elem_of_Trace_call in Hin.
      destruct Hin as (_ & (? & ?) & Hf). rewrite Hf. done.
    + intros (Hnil & Hc & Hf).
      destruct (errors (execution l)) as [f|] eqn:Hreg; [|done].
      exists f, (trace_infos rt begin fc err).
      apply elem_of_Trace_call. done.
  - intros f. apply elem_of_Trace_call. split; [done|].
    split; [|done]. split; [done|]. by right.
Qed.

(** ** The slow callback *)

(** C8. In every [Trace] call the slow callback is invoked exactly when
    [slowSqlTrigger] is not zero, the elapsed time exceeds it, and a slow
    callback is registered. The formatting threshold [SlowThreshold] plays
    no part in it (nor [slowSqlTrigger] in the formatted line), and a
    [slowSqlTrigger] of zero disables the slow callback. *)
Theorem C8_slow_callback_iff rt l begin fc err :
  (∀ f g, Call SlowSite f g ∈ Trace rt l begin fc err ↔
          slowSqlTrigger (execution l) ≠ 0
          ∧ slowSqlTrigger (execution l) < time_Since rt begin
          ∧ warns (execution l) = Some f
          ∧ g = trace_infos rt begin fc err)
  ∧ (fired SlowSite (Trace rt l begin fc err) ↔
     slowSqlTrigger (execution l) ≠ 0
     ∧ slowSqlTrigger (execution l) < time_Since rt begin
     ∧ warns (execution l) ≠ None)
  ∧ (∀ t, calls (Trace rt (with_config (set_SlowThreshold t) l) begin fc err)
          = calls (Trace rt l begin fc err))
  ∧ (∀ d, lines (Trace rt (with_execution (set_slowSqlTrigger d) l)
                   begin fc err)
          = lines (Trace rt l begin fc err))
  ∧ ¬ fired SlowSite
        (Trace rt (with_execution (set_slowSqlTrigger 0) l) begin fc err).
Proof.
  split; [|split; [|split; [|split]]].
  - intros f g. rewrite elem_of_Trace_call. unfold spec_slow_trigger. tauto.
  - unfold fired. split.
    + intros (f & g & Hin). apply elem_of_Trace_call in Hin.
      destruct Hin as (_ & (? & ?) & Hf). rewrite Hf. done.
    + intros (Hnz & Hlt & Hf).
      destruct (warns (execution l)) as [f|] eqn:Hreg; [|done].
      exists f, (trace_infos rt begin fc err).
      apply elem_of_Trace_call. done.
  - intros t. by rewrite !calls_Trace.
  - intros d. by rewrite !lines_Trace.
  - intros (f & g & Hin). apply elem_of_Trace_call in Hin.
    by destruct Hin as (_ & (Hnz & _) & _).
Qed.

(** ** Order of the steps *)

Lemma sites_app (es1 es2 : list event) :
  sites (es1 ++ es2) = (sites es1 ++ sites es2)%list.
Proof. apply omap_app. Qed.

Lemma sites_triggers_sublist rt l begin fc err :
  sites (spec_triggers rt l begin fc err)
  `sublist_of` [AlwaysSite; SlowSite; ErrorSite].
Proof.
  unfold spec_triggers. rewrite !sites_app.
  destruct (always (execution l)), (warns (execution l)),
    (errors (execution l));
    repeat case_decide; simpl;
    repeat first [apply sublist_nil_l | apply sublist_skip | apply sublist_cons].
Qed.

(** A chain of registrations on a stored logger rewrites that logger in
    place and returns the same pointer. *)
Lemma register_chain_in_place rs : ∀ (σ : store) p cl,
  σ !! p = Some cl →
  register_chain rs p σ
  = Some (p, <[p := foldl (λ c r, register_struct r c) cl rs]> σ).
Proof.
  induction rs as [|r rs IH]; intros σ p cl Hp; simpl.
  - by rewrite insert_id.
  - assert (register r p σ = Some (p, <[p := register_struct r cl]> σ))
      as ->.
    { destruct r; simpl;
        unfold AlwaysTrigger, SlowTrigger, ErrorTrigger, ConsiderNotFound;
        by rewrite Hp. }
    rewrite (IH _ p (register_struct r cl)) by apply lookup_insert_eq.
    by rewrite insert_insert_eq.
Qed.

(** C3. In every [Trace] call the run is a block of callback invocations
    followed by a block of formatted lines, and the call sites that fire
    do so in the order always, slow, error. The order does not depend on
    the order of registration: whichever way the three registrations are
    chained, a statement that is slow, erroring and considerable invokes
    the always, the slow and the error callback, in this order, before any
    line. *)
Theorem C3_callbacks_in_order rt begin fc err :
  (∀ l, ∃ cs ln,
      Trace rt l begin fc err = (cs ++ ln)%list
      ∧ Forall (λ e, is_call e = true) cs
      ∧ Forall (λ e, is_line e = true) ln
      ∧ sites cs `sublist_of` [AlwaysSite; SlowSite; ErrorSite])
  ∧ (∀ (σ : store) p cl rs a s d e,
      σ !! p = Some cl →
      rs ≡ₚ [RegAlways (Some a); RegSlow (Some s) d; RegError (Some e)] →
      d ≠ 0 → d < time_Since rt begin →
      err ≠ None →
      errors_Is err (Some ErrRecordNotFound) = false
      ∨ considerRecordNotFoundError (execution cl) = true →
      ∃ σ' ln,
        register_chain rs p σ = Some (p, σ')
        ∧ Trace_at rt σ' p begin fc err
          = Some ([Call AlwaysSite a (trace_infos rt begin fc err);
                   Call SlowSite s (trace_infos rt begin fc err);
                   Call ErrorSite e (trace_infos rt begin fc err)] ++ ln)%list
        ∧ Forall (λ e, is_line e = true) ln).
Proof.
  split.
  - intros l. exists (spec_triggers rt l begin fc err),
      (spec_line rt l begin fc err).
    split; [apply Trace_steps|].
    split; [apply Forall_is_call_triggers|].
    split; [apply Forall_is_line_line|apply sites_triggers_sublist].
  - intros σ p cl rs a s d e Hp Hperm Hd Hslow Herr Hcons.
    set (cl' := foldl (λ c r, register_struct r c) cl rs).
    exists (<[p := cl']> σ), (spec_line rt cl' begin fc err).
    split; [by apply register_chain_in_place|].
    split; [|apply Forall_is_line_line].
    unfold Trace_at. rewrite lookup_insert_eq. simpl.
    rewrite Trace_steps. do 2 f_equal.
    assert (execution cl'
            = mkExecution (Some a) (Some s) d (Some e)
                (considerRecordNotFoundError (execution cl))) as Hex.
    { symmetry in Hperm. apply permutations_Permutation in Hperm.
      cbv [permutations interleave foldr mbind list_bind list_fmap fmap
             app] in Hperm.
      subst cl'.
      repeat (apply elem_of_cons in Hperm as [->|Hperm]; [done|]).
      by apply elem_of_nil in Hperm. }
    unfold spec_triggers.
    rewrite decide_True by (unfold spec_slow_trigger; by rewrite Hex).
    rewrite decide_True by (unfold spec_error_trigger; by rewrite Hex).
    by rewrite Hex.
Qed.

Lemma C3_callbacks_in_order_witness :
  let rt := runtime_at (300 * time.Millisecond) in
  let σ : store :=
    {[ 1%positive := New_struct stdout (plain_config lg.Warn) ]} in
  let rs := [RegError (Some (Func "error"));
             RegSlow (Some (Func "slow")) (100 * time.Millisecond);
             RegAlways (Some (Func "always"))] in
  let err := Some (errors_New 2 "duplicate key") in
  let g := trace_infos rt 0 (select_users 3) err in
  ∃ σ' ln,
    register_chain rs 1%positive σ = Some (1%positive, σ')
    ∧ Trace_at rt σ' 1%positive 0 (select_users 3) err
      = Some ([Call AlwaysSite (Func "always") g;
               Call SlowSite (Func "slow") g;
               Call ErrorSite (Func "error") g] ++ ln)%list
    ∧ Forall (λ e, is_line e = true) ln.
Proof.
  apply (proj2 (C3_callbacks_in_order (runtime_at (300 * time.Millisecond))
                  0 (select_users 3) (Some (errors_New 2 "duplicate key")))
           {[ 1%positive := New_struct stdout (plain_config lg.Warn) ]}
           1%positive (New_struct stdout (plain_config lg.Warn))
           [RegError (Some (Func "error"));
            RegSlow (Some (Func "slow")) (100 * time.Millisecond);
            RegAlways (Some (Func "always"))]
           (Func "always") (Func "slow") (100 * time.Millisecond)
           (Func "error")).
  - reflexivity.
  - symmetry. apply (Permutation_rev [RegAlways _; RegSlow _ _; RegError _]).
  - discriminate.
  - reflexivity.
  - discriminate.
  - left. reflexivity.
Defined.

(** ** The level Silent *)

(** C4. In every [Trace] call of a logger at level Silent no formatted line
    goes to the writer, while the always callback, and the error callback
    when its condition holds, are invoked if registered; which callbacks
    fire is the same at every level. *)
Theorem C4_silent_still_fires rt l begin fc err
    (Hsilent : LogLevel (config l) = lg.Silent) :
  lines (Trace rt l begin fc err) = []
  ∧ (∀ w format args, Printf w format args ∉ Trace rt l begin fc err)
  ∧ (∀ f, always (execution l) = Some f →
          Call AlwaysSite f (trace_infos rt begin fc err)
          ∈ Trace rt l begin fc err)
  ∧ (∀ f, errors (execution l) = Some f →
          err ≠ None →
          errors_Is err (Some ErrRecordNotFound) = false
          ∨ considerRecordNotFoundError (execution l) = true →
          Call ErrorSite f (trace_infos rt begin fc err)
          ∈ Trace rt l begin fc err)
  ∧ (∀ level,
       calls (Trace rt (with_config (set_LogLevel level) l) begin fc err)
       = calls (Trace rt l begin fc err)).
Proof.
  assert (spec_line rt l begin fc err = []) as Hline.
  { unfold spec_line. rewrite Hsilent. by rewrite decide_True. }
  split; [by rewrite lines_Trace|].
  split.
  { intros w format args Hin. apply elem_of_Trace_line in Hin.
    rewrite Hline in Hin. by apply elem_of_nil in Hin. }
  split; [intros f Hf; by apply elem_of_Trace_call|].
  split; [intros f Hf Herr Hcons; by apply elem_of_Trace_call|].
  intros level. by rewrite !calls_Trace.
Qed.

Lemma C4_silent_still_fires_witness :
  let rt := runtime_at (300 * time.Millisecond) in
  let l := with_execution (λ _, all_triggers)
             (New_struct stdout (plain_config lg.Silent)) in
  let err := Some (errors_New 2 "duplicate key") in
  let es := Trace rt l 0 (select_users 3) err in
  lines es = []
  ∧ Call AlwaysSite (Func "always") (trace_infos rt 0 (select_users 3) err)
    ∈ es
  ∧ Call ErrorSite (Func "error") (trace_infos rt 0 (select_users 3) err)
    ∈ es.
Proof.
  cbv zeta.
  destruct (C4_silent_still_fires (runtime_at (300 * time.Millisecond))
              (with_execution (λ _, all_triggers)
                 (New_struct stdout (plain_config lg.Silent)))
              0 (select_users 3) (Some (errors_New 2 "duplicate key"))
              eq_refl) as (Hl & _ & Ha & He & _).
  split; [exact Hl|]. split.
  - apply Ha. reflexivity.
  - apply He; [reflexivity|discriminate|left; reflexivity].
Defined.

(** ** The formatted line *)

(** C5. In every [Trace] call of a logger above level Silent the formatted
    lines of the run are those of the one branch selected top to bottom,
    first match first: the error branch ([err != nil], level ≥ Error, and
    [err] not the not-found sentinel or not ignoring not-found), else the
    slow branch (elapsed > [SlowThreshold], [SlowThreshold] not zero, level
    ≥ Warn; its message is ["SLOW SQL >= "] and the threshold), else the
    info branch (level = Info exactly); when none applies no line is
    emitted. *)
Theorem C5_one_branch_first_match rt l begin fc err
    (Hlevel : lg.Silent < LogLevel (config l)) :
  lines (Trace rt l begin fc err)
  = match spec_select_branch l (time_Since rt begin) err with
    | Some b =>
        [spec_branch_line rt l b (time_Since rt begin) (fc ()).1 (fc ()).2
           err]
    | None => []
    end
  ∧ (spec_error_branch l err →
     spec_select_branch l (time_Since rt begin) err = Some ErrorBranch)
  ∧ (¬ spec_error_branch l err →
     spec_slow_branch l (time_Since rt begin) →
     spec_select_branch l (time_Since rt begin) err = Some SlowBranch)
  ∧ (¬ spec_error_branch l err →
     ¬ spec_slow_branch l (time_Since rt begin) →
     spec_info_branch l →
     spec_select_branch l (time_Since rt begin) err = Some InfoBranch)
  ∧ (¬ spec_error_branch l err →
     ¬ spec_slow_branch l (time_Since rt begin) →
     ¬ spec_info_branch l →
     spec_select_branch l (time_Since rt begin) err = None)
  ∧ (length (lines (Trace rt l begin fc err)) ≤ 1)%nat.
Proof.
  assert (lines (Trace rt l begin fc err)
          = match spec_select_branch l (time_Since rt begin) err with
            | Some b =>
                [spec_branch_line rt l b (time_Since rt begin) (fc ()).1
                   (fc ()).2 err]
            | None => []
            end) as Heq.
  { rewrite lines_Trace. unfold spec_line.
    rewrite decide_False by lia. done. }
  split; [exact Heq|].
  unfold spec_select_branch.
  repeat split; intros; repeat case_decide; try done.
  rewrite Heq. destruct (spec_select_branch _ _ _); simpl; lia.
Qed.

Lemma C5_one_branch_first_match_witness :
  let rt := runtime_at (250 * time.Millisecond) in
  let l := New_struct stdout (plain_config lg.Warn) in
  lines (Trace rt l 0 (select_users 3) None)
  = [Printf stdout (traceWarnStr l)
       [VString "main.go:42"; VString "SLOW SQL >= 200ms";
        VFloat64 (millis_of_nanos (250 * time.Millisecond)); VInt64 3;
        VString "SELECT * FROM users"]].
Proof.
  exact (proj1 (C5_one_branch_first_match
                  (runtime_at (250 * time.Millisecond))
                  (New_struct stdout (plain_config lg.Warn))
                  0 (select_users 3) None eq_refl)).
Defined.

(** C7. Every formatted line of a [Trace] call, of whichever branch,
    passes for the rows placeholder the string ["-"] when the row count is
    -1 and the integer itself when the count is ≥ 0 (and so for any count
    other than -1). *)
Theorem C7_rows_placeholder rt l begin fc err e
    (Hin : e ∈ Trace rt l begin fc err) (Hline : is_line e = true) :
  ((fc ()).2 = -1 → rows_argument e = Some (VString "-"))
  ∧ (0 ≤ (fc ()).2 → rows_argument e = Some (VInt64 (fc ()).2))
  ∧ ((fc ()).2 ≠ -1 → rows_argument e = Some (VInt64 (fc ()).2)).
Proof.
  destruct e as [s f g|w format args]; [done|].
  apply elem_of_Trace_line in Hin. unfold spec_line in Hin.
  case_decide; [by apply elem_of_nil in Hin|].
  assert (rows_argument (Printf w format args) = Some (spec_rows (fc ()).2))
    as ->.
  { destruct (spec_select_branch _ _ _) as [[]|];
      [| | |by apply elem_of_nil in Hin];
      apply list_elem_of_singleton in Hin; simpl in Hin;
      by injection Hin as -> -> ->. }
  unfold spec_rows.
  repeat split; intros; case_decide; (done || lia).
Qed.

Lemma C7_rows_placeholder_witness :
  let rt := runtime_at (10 * time.Millisecond) in
  let l := New_struct stdout (plain_config lg.Info) in
  let e := Printf stdout (traceStr l)
             [VString "main.go:42";
              VFloat64 (millis_of_nanos (10 * time.Millisecond));
              VString "-"; VString "SELECT * FROM users"] in
  e ∈ Trace rt l 0 (select_users (-1)) None
  ∧ rows_argument e = Some (VString "-").
Proof.
  cbv zeta.
  assert (Printf stdout
            (traceStr (New_struct stdout (plain_config lg.Info)))
            [VString "main.go:42";
             VFloat64 (millis_of_nanos (10 * time.Millisecond));
             VString "-"; VString "SELECT * FROM users"]
          ∈ Trace (runtime_at (10 * time.Millisecond))
              (New_struct stdout (plain_config lg.Info)) 0
              (select_users (-1)) None) as Hin.
  { apply list_elem_of_here. }
  split; [exact Hin|].
  apply (proj1 (C7_rows_placeholder _ _ _ _ _ _ Hin eq_refl)).
  reflexivity.
Defined.

(** ** Not-found errors and the error-trace line *)

(** C9. For a [Trace] call whose error is the not-found sentinel, at a
    level ≥ Error, by a logger built with [IgnoreRecordNotFoundError ==
    false], the error-trace line is emitted whatever
    [considerRecordNotFoundError] is set to. That flag changes nothing but
    the calls of the error callback: the lines and the other calls of a run
    are the same for both its values; and with [IgnoreRecordNotFoundError
    == true] the line is not emitted, whatever the flag. *)
Theorem C9_line_ignores_consider_flag rt l begin fc err
    (Hnf : errors_Is err (Some ErrRecordNotFound) = true)
    (Hlevel : lg.Error ≤ LogLevel (config l)) :
  (IgnoreRecordNotFoundError (config l) = false →
   ∀ b, lines (Trace rt
                 (with_execution (set_considerRecordNotFoundError b) l)
                 begin fc err)
        = [Printf (writer l) (traceErrStr l)
             [VString (FileWithLineNum rt); VError err;
              VFloat64 (millis_of_nanos (time_Since rt begin));
              spec_rows (fc ()).2; VString (fc ()).1]]
        ∧ Forall (λ e, is_error_trace l e = true)
            (lines (Trace rt
                      (with_execution (set_considerRecordNotFoundError b) l)
                      begin fc err)))
  ∧ (IgnoreRecordNotFoundError (config l) = true →
     ∀ b e, e ∈ Trace rt
                  (with_execution (set_considerRecordNotFoundError b) l)
                  begin fc err →
            is_error_trace l e = false)
  ∧ (∀ b, without_site ErrorSite
            (Trace rt (with_execution (set_considerRecordNotFoundError b) l)
               begin fc err)
          = without_site ErrorSite (Trace rt l begin fc err)).
Proof.
  assert (err ≠ None) as Herr.
  { intros ->. discriminate Hnf. }
  split; [|split].
  - intros Hign b.
    assert (lines (Trace rt
                     (with_execution (set_considerRecordNotFoundError b) l)
                     begin fc err)
            = [Printf (writer l) (traceErrStr l)
                 [VString (FileWithLineNum rt); VError err;
                  VFloat64 (millis_of_nanos (time_Since rt begin));
                  spec_rows (fc ()).2; VString (fc ()).1]]) as ->.
    { rewrite lines_Trace. unfold spec_line, spec_select_branch.
      rewrite decide_False by (simpl; unfold lg.Silent, lg.Error in *; lia).
      rewrite decide_True; [done|].
      split; [done|]. split; [done|]. by right. }
    split; [done|].
    constructor; [|constructor]. simpl. by rewrite bool_decide_eq_true.
  - intros Hign b [s f g|w format args] Hin; [done|].
    apply elem_of_Trace_line in Hin. unfold spec_line in Hin.
    case_decide; [by apply elem_of_nil in Hin|].
    unfold spec_select_branch in Hin.
    rewrite (decide_False (P := spec_error_branch _ err)) in Hin.
    2: { intros (_ & _ & [?|?]); simpl in *; congruence. }
    repeat case_decide; try (by apply elem_of_nil in Hin);
      apply list_elem_of_singleton in Hin; simpl in Hin;
      injection Hin as -> -> ->; done.
  - intros b. rewrite !Trace_steps. unfold without_site.
    rewrite !List.filter_app. f_equal.
    unfold spec_triggers. rewrite !List.filter_app. simpl.
    do 2 f_equal.
    repeat case_decide; unfold fire;
      destruct (errors (execution l)); done.
Qed.

Lemma C9_line_ignores_consider_flag_witness :
  let rt := runtime_at (50 * time.Millisecond) in
  let l := New_struct stdout (plain_config lg.Warn) in
  let line := Printf stdout (traceErrStr l)
                [VString "main.go:42"; VError (Some ErrRecordNotFound);
                 VFloat64 (millis_of_nanos (50 * time.Millisecond));
                 VInt64 0; VString "SELECT * FROM users"] in
  lines (Trace rt (with_execution (set_considerRecordNotFoundError true) l)
           0 (select_users 0) (Some ErrRecordNotFound)) = [line]
  ∧ lines (Trace rt
             (with_execution (set_considerRecordNotFoundError false) l)
             0 (select_users 0) (Some ErrRecordNotFound)) = [line].
Proof.
  cbv zeta.
  assert (lg.Error
          ≤ LogLevel (config (New_struct stdout (plain_config lg.Warn))))
    as Hlevel by (by vm_compute).
  pose proof (proj1 (C9_line_ignores_consider_flag
                       (runtime_at (50 * time.Millisecond))
                       (New_struct stdout (plain_config lg.Warn))
                       0 (select_users 0) (Some ErrRecordNotFound)
                       eq_refl Hlevel) eq_refl) as Hline.
  split.
  - exact (proj1 (Hline true)).
  - exact (proj1 (Hline false)).
Defined.

(** ** Copy on [LogMode], update in place on [SetSlowSqlThreshold] *)

(** C6. [LogMode] on a stored logger returns the address of a new struct,
    which has the given level and in every other field (writer, triggers,
    templates, the rest of the configuration) the very value the receiver
    has; the receiver and every other struct of the store are left as they
    were, so [Trace] through the receiver runs as before, at the
    receiver's level, and a registration made through the new pointer does
    not reach the receiver. *)
Theorem C6_LogMode_copies (σ : store) d1 cl level
    (Hd1 : σ !! d1 = Some cl) :
  ∃ d2 σ',
    LogMode d1 level σ = Some (d2, σ')
    ∧ d2 ≠ d1 ∧ σ !! d2 = None
    ∧ σ' !! d1 = Some cl
    ∧ (∀ p, p ≠ d2 → σ' !! p = σ !! p)
    ∧ (∃ cl2, σ' !! d2 = Some cl2
              ∧ cl2 = with_config (set_LogLevel level) cl
              ∧ LogLevel (config cl2) = level
              ∧ SlowThreshold (config cl2) = SlowThreshold (config cl)
              ∧ Colorful (config cl2) = Colorful (config cl)
              ∧ IgnoreRecordNotFoundError (config cl2)
                = IgnoreRecordNotFoundError (config cl)
              ∧ writer cl2 = writer cl
              ∧ execution cl2 = execution cl
              ∧ (infoStr cl2, warnStr cl2, errStr cl2)
                = (infoStr cl, warnStr cl, errStr cl)
              ∧ (traceStr cl2, traceErrStr cl2, traceWarnStr cl2)
                = (traceStr cl, traceErrStr cl, traceWarnStr cl))
    ∧ (∀ rt begin fc err,
         Trace_at rt σ' d1 begin fc err = Trace_at rt σ d1 begin fc err
         ∧ Trace_at rt σ' d1 begin fc err = Some (Trace rt cl begin fc err)
         ∧ Trace_at rt σ' d2 begin fc err
           = Some (Trace rt (with_config (set_LogLevel level) cl)
                     begin fc err))
    ∧ (∀ r, ∃ σ'', register r d2 σ' = Some (d2, σ'')
                   ∧ σ'' !! d1 = Some cl).
Proof.
  exists (fresh (dom σ)), (<[fresh (dom σ) := with_config (set_LogLevel level) cl]> σ).
  assert (σ !! fresh (dom σ) = None) as Hfresh.
  { apply not_elem_of_dom, is_fresh. }
  assert (fresh (dom σ) ≠ d1) as Hne by congruence.
  split; [unfold LogMode; by rewrite Hd1|].
  split; [done|]. split; [done|].
  split; [by rewrite lookup_insert_ne|].
  split; [intros p Hp; by rewrite lookup_insert_ne|].
  split.
  { eexists. split; [apply lookup_insert_eq|]. done. }
  split.
  { intros rt begin fc err. unfold Trace_at.
    rewrite lookup_insert_ne by done. rewrite lookup_insert_eq, Hd1. done. }
  intros r.
  exists (<[fresh (dom σ) :=
             register_struct r (with_config (set_LogLevel level) cl)]> σ).
  split.
  - destruct r; simpl;
      unfold AlwaysTrigger, SlowTrigger, ErrorTrigger, ConsiderNotFound;
      rewrite lookup_insert_eq; simpl; by rewrite insert_insert_eq.
  - by rewrite lookup_insert_ne.
Qed.

Lemma C6_LogMode_copies_witness :
  let cl := with_execution (λ _, all_triggers)
              (New_struct stdout (plain_config lg.Info)) in
  let σ : store := {[ 1%positive := cl ]} in
  ∃ d2 σ',
    LogMode 1%positive lg.Error σ = Some (d2, σ')
    ∧ d2 ≠ 1%positive
    ∧ σ' !! 1%positive = Some cl
    ∧ ∀ rt begin fc err,
        Trace_at rt σ' 1%positive begin fc err
        = Some (Trace rt cl begin fc err).
Proof.
  intros cl σ.
  destruct (C6_LogMode_copies σ 1%positive cl lg.Error eq_refl)
    as (d2 & σ' & Hrun & Hne & _ & Hsame & _ & _ & Htrace & _).
  exists d2, σ'. split; [exact Hrun|]. split; [exact Hne|].
  split; [exact Hsame|].
  intros rt begin fc err. exact (proj1 (proj2 (Htrace rt begin fc err))).
Defined.

(** C10. [SetSlowSqlThreshold] on a stored logger changes that struct in
    place, and in it the field [SlowThreshold] alone: the trigger duration,
    the callbacks and every other field are as before, and so is every
    other struct. A [Trace] through the same pointer then makes the same
    calls as before, and uses the new threshold both to choose the slow
    branch and in the message ["SLOW SQL >= "] followed by the
    threshold. *)
Theorem C10_SetSlowSqlThreshold_in_place (σ : store) l cl t
    (Hl : σ !! l = Some cl) :
  ∃ σ' cl',
    SetSlowSqlThreshold l t σ = Some σ'
    ∧ σ' = <[l := cl']> σ
    ∧ dom σ' = dom σ
    ∧ σ' !! l = Some cl'
    ∧ (∀ p, p ≠ l → σ' !! p = σ !! p)
    ∧ SlowThreshold (config cl') = t
    ∧ Colorful (config cl') = Colorful (config cl)
    ∧ IgnoreRecordNotFoundError (config cl')
      = IgnoreRecordNotFoundError (config cl)
    ∧ LogLevel (config cl') = LogLevel (config cl)
    ∧ writer cl' = writer cl
    ∧ execution cl' = execution cl
    ∧ (infoStr cl', warnStr cl', errStr cl')
      = (infoStr cl, warnStr cl, errStr cl)
    ∧ (traceStr cl', traceErrStr cl', traceWarnStr cl')
      = (traceStr cl, traceErrStr cl, traceWarnStr cl)
    ∧ ∀ rt begin fc err,
        Trace_at rt σ' l begin fc err = Some (Trace rt cl' begin fc err)
        ∧ calls (Trace rt cl' begin fc err)
          = calls (Trace rt cl begin fc err)
        ∧ (spec_select_branch cl' (time_Since rt begin) err
           = Some SlowBranch ↔
           ¬ spec_error_branch cl err
           ∧ t < time_Since rt begin ∧ t ≠ 0
           ∧ lg.Warn ≤ LogLevel (config cl))
        ∧ (spec_select_branch cl' (time_Since rt begin) err
           = Some SlowBranch →
           lines (Trace rt cl' begin fc err)
           = [Printf (writer cl) (traceWarnStr cl)
                [VString (FileWithLineNum rt);
                 VString ("SLOW SQL >= " +:+ Duration_String rt t);
                 VFloat64 (millis_of_nanos (time_Since rt begin));
                 spec_rows (fc ()).2; VString (fc ()).1]]).
Proof.
  exists (<[l := with_config (set_SlowThreshold t) cl]> σ),
    (with_config (set_SlowThreshold t) cl).
  split; [unfold SetSlowSqlThreshold; by rewrite Hl|].
  split; [done|].
  split; [by apply dom_insert_lookup_L|].
  split; [apply lookup_insert_eq|].
  split; [intros p Hp; by rewrite lookup_insert_ne|].
  do 8 (split; [done|]).
  intros rt begin fc err.
  split; [unfold Trace_at; by rewrite lookup_insert_eq|].
  split; [by rewrite !calls_Trace|].
  assert (spec_select_branch (with_config (set_SlowThreshold t) cl)
            (time_Since rt begin) err = Some SlowBranch ↔
          ¬ spec_error_branch cl err
          ∧ t < time_Since rt begin ∧ t ≠ 0
          ∧ lg.Warn ≤ LogLevel (config cl)) as Hiff.
  { unfold spec_select_branch, spec_error_branch, spec_slow_branch,
      spec_info_branch. simpl.
    repeat case_decide; split; try done; tauto. }
  split; [exact Hiff|].
  intros Hsel. rewrite lines_Trace. unfold spec_line.
  rewrite decide_False.
  2: { apply Hiff in Hsel. simpl. unfold lg.Silent, lg.Warn in *. lia. }
  by rewrite Hsel.
Qed.

Lemma C10_SetSlowSqlThreshold_in_place_witness :
  let cl := with_execution (λ _, all_triggers)
              (New_struct stdout (plain_config lg.Warn)) in
  let σ : store := {[ 1%positive := cl ]} in
  ∃ σ' cl',
    SetSlowSqlThreshold 1%positive (20 * time.Millisecond) σ = Some σ'
    ∧ σ' !! 1%positive = Some cl'
    ∧ execution cl' = execution cl
    ∧ SlowThreshold (config cl') = 20 * time.Millisecond.
Proof.
  intros cl σ.
  destruct (C10_SetSlowSqlThreshold_in_place σ 1%positive cl
              (20 * time.Millisecond) eq_refl)
    as (σ' & cl' & Hrun & _ & _ & Hl & _ & Ht & _ & _ & _ & _ & Hex & _).
  exists σ', cl'. done.
Defined.

(** ** Runs on sample data *)

(** A statement of 50ms is not slow for a threshold of 200ms; after
    [SetSlowSqlThreshold(20ms)] on the same logger it is, and the line
    names the new threshold. *)
Example threshold_before_and_after :
  let cl := New_struct stdout (plain_config lg.Warn) in
  let σ : store := {[ 1%positive := cl ]} in
  let rt := runtime_at (50 * time.Millisecond) in
  Trace_at rt σ 1%positive 0 (select_users 3) None = Some []
  ∧ (σ' ← SetSlowSqlThreshold 1%positive (20 * time.Millisecond) σ;
     Trace_at rt σ' 1%positive 0 (select_users 3) None)
    = Some [Printf stdout (traceWarnStr cl)
              [VString "main.go:42"; VString "SLOW SQL >= 20ms";
               VFloat64 (millis_of_nanos (50 * time.Millisecond));
               VInt64 3; VString "SELECT * FROM users"]].
Proof. split; reflexivity. Qed.

(** The chain of the readme:
    [Default.ErrorTrigger(dbError).AlwaysTrigger(dbBreadCrumb).LogMode(Info)].
    The logger handed to gorm is a copy; [Default] keeps level Warn and
    has both triggers. *)
Example readme_chain :
  let '(d, σ0) := Default in
  let chain :=
    '(l1, σ1) ← ErrorTrigger d (Some (Func "dbError")) σ0;
    '(l2, σ2) ← AlwaysTrigger l1 (Some (Func "dbBreadCrumb")) σ1;
    '(l3, σ3) ← LogMode l2 lg.Info σ2;
    Some (l2, l3, σ3) in
  ∃ l3 σ3 cl cl3,
    chain = Some (d, l3, σ3) ∧ l3 ≠ d
    ∧ σ3 !! d = Some cl ∧ σ3 !! l3 = Some cl3
    ∧ LogLevel (config cl) = lg.Warn ∧ LogLevel (config cl3) = lg.Info
    ∧ execution cl3 = execution cl
    ∧ execution cl
      = mkExecution (Some (Func "dbBreadCrumb")) None 0
          (Some (Func "dbError")) false.
Proof.
  vm_compute. eexists _, _, _, _.
  split; [reflexivity|]. split; [discriminate|].
  repeat split; reflexivity.
Qed.

(** [time.Duration.String] on a few durations. *)
Example Duration_String_samples :
  go_time.Duration_String (200 * time.Millisecond) = "200ms"
  ∧ go_time.Duration_String (1500 * time.Millisecond) = "1.5s"
  ∧ go_time.Duration_String (3723 * time.Second + 5) = "1h2m3.000000005s"
  ∧ go_time.Duration_String 0 = "0s"
  ∧ go_time.Duration_String (60 * time.Second) = "1m0s".
Proof. repeat split; reflexivity. Qed.

(** * The rest of the package *)

(** ** [Info], [Warn], [Error] *)

(** X1. The three plain-message methods are nested by level: [Error]
    prints exactly from level Error on, [Warn] from Warn on, [Info] from
    Info on, so whatever [Info] prints [Warn] prints too, and [Error] as
    well. Each prints at most one line, to the logger's own writer, with the
    template followed by the message as format and the call site in front of
    the data; none invokes a callback. *)
Theorem X1_plain_messages_nested rt l msg data :
  (Info rt l msg data ≠ [] ↔ lg.Info ≤ LogLevel (config l))
  ∧ (Warn rt l msg data ≠ [] ↔ lg.Warn ≤ LogLevel (config l))
  ∧ (Error rt l msg data ≠ [] ↔ lg.Error ≤ LogLevel (config l))
  ∧ (length (Info rt l msg data) ≤ length (Warn rt l msg data))%nat
  ∧ (length (Warn rt l msg data) ≤ length (Error rt l msg data))%nat
  ∧ (length (Error rt l msg data) ≤ 1)%nat
  ∧ Forall (λ e, e = Printf (writer l) (infoStr l +:+ msg)
                     (VString (FileWithLineNum rt) :: data))
      (Info rt l msg data)
  ∧ Forall (λ e, e = Printf (writer l) (warnStr l +:+ msg)
                     (VString (FileWithLineNum rt) :: data))
      (Warn rt l msg data)
  ∧ Forall (λ e, e = Printf (writer l) (errStr l +:+ msg)
                     (VString (FileWithLineNum rt) :: data))
      (Error rt l msg data)
  ∧ calls (Info rt l msg data ++ Warn rt l msg data ++ Error rt l msg data)
    = [].
Proof.
  unfold Info, Warn, Error, lg.Info, lg.Warn, lg.Error.
  repeat case_bool_decide; try lia; simpl;
    repeat split; intros; try done; try lia;
    repeat constructor.
Qed.

(** ** Registration *)

Lemma register_in_place r (σ : store) p cl :
  σ !! p = Some cl →
  register r p σ = Some (p, <[p := register_struct r cl]> σ).
Proof.
  intros Hp.
  destruct r; simpl;
    unfold AlwaysTrigger, SlowTrigger, ErrorTrigger, ConsiderNotFound;
    by rewrite Hp.
Qed.

(** X2. Each registration method ([AlwaysTrigger], [SlowTrigger],
    [ErrorTrigger], [ConsiderNotFound]) returns its receiver and changes
    that struct in place: the store has the same addresses, every other
    struct is untouched, and in the receiver the writer, the configuration
    and the templates stay, as do the trigger fields of the other methods.
    On a pointer that holds no struct the method fails. *)
Theorem X2_registration_in_place r (σ : store) p cl :
  register r p (<[p := cl]> σ)
  = Some (p, <[p := register_struct r cl]> σ)
  ∧ dom (<[p := register_struct r cl]> σ) = dom (<[p := cl]> σ)
  ∧ delete p (<[p := register_struct r cl]> σ) = delete p σ
  ∧ writer (register_struct r cl) = writer cl
  ∧ config (register_struct r cl) = config cl
  ∧ templates (register_struct r cl) = templates cl
  ∧ (slot r ≠ 0%nat →
     always (execution (register_struct r cl)) = always (execution cl))
  ∧ (slot r ≠ 1%nat →
     warns (execution (register_struct r cl)) = warns (execution cl)
     ∧ slowSqlTrigger (execution (register_struct r cl))
       = slowSqlTrigger (execution cl))
  ∧ (slot r ≠ 2%nat →
     errors (execution (register_struct r cl)) = errors (execution cl))
  ∧ (slot r ≠ 3%nat →
     considerRecordNotFoundError (execution (register_struct r cl))
     = considerRecordNotFoundError (execution cl))
  ∧ register r p (delete p σ) = None.
Proof.
  split.
  { rewrite (register_in_place r _ p cl) by apply lookup_insert_eq.
    by rewrite insert_insert_eq. }
  split; [by rewrite !dom_insert_L|].
  split; [by rewrite delete_insert_eq|].
  split; [by destruct r|]. split; [by destruct r|]. split; [by destruct r|].
  repeat split; try (by destruct r).
  destruct r; simpl;
    unfold AlwaysTrigger, SlowTrigger, ErrorTrigger, ConsiderNotFound;
    by rewrite lookup_delete_eq.
Qed.

Lemma X2_registration_in_place_witness :
  let cl := New_struct stdout (plain_config lg.Warn) in
  let r := RegSlow (Some (Func "slow")) (100 * time.Millisecond) in
  register r 1%positive {[ 1%positive := cl ]}
  = Some (1%positive, {[ 1%positive := register_struct r cl ]})
  ∧ always (execution (register_struct r cl)) = always (execution cl)
  ∧ errors (execution (register_struct r cl)) = errors (execution cl).
Proof.
  intros cl r.
  destruct (X2_registration_in_place r ∅ 1%positive cl)
    as (Hrun & _ & _ & _ & _ & _ & Ha & _ & He & _).
  split; [|split].
  - exact Hrun.
  - apply Ha. discriminate.
  - apply He. discriminate.
Defined.

Lemma register_struct_comm r1 r2 cl :
  slot r1 ≠ slot r2 →
  register_struct r2 (register_struct r1 cl)
  = register_struct r1 (register_struct r2 cl).
Proof. by destruct r1, r2. Qed.

Lemma register_struct_last r1 r2 cl :
  slot r1 = slot r2 →
  register_struct r2 (register_struct r1 cl) = register_struct r2 cl.
Proof. by destruct r1, r2. Qed.

(** X3. In a chain of registrations two neighbours of different methods
    may be swapped, and of two neighbours of the same method only the
    second counts: the chain ends in the same store either way. *)
Theorem X3_registrations_compose r1 r2 rs (σ : store) p cl :
  (slot r1 ≠ slot r2 →
   register_chain (r1 :: r2 :: rs) p (<[p := cl]> σ)
   = register_chain (r2 :: r1 :: rs) p (<[p := cl]> σ))
  ∧ (slot r1 = slot r2 →
     register_chain (r1 :: r2 :: rs) p (<[p := cl]> σ)
     = register_chain (r2 :: rs) p (<[p := cl]> σ)).
Proof.
  assert (<[p := cl]> σ !! p = Some cl) as Hp by apply lookup_insert_eq.
  split; intros Hslot.
  - rewrite !(register_chain_in_place _ _ p cl Hp). simpl.
    by rewrite (register_struct_comm r1 r2).
  - rewrite !(register_chain_in_place _ _ p cl Hp). simpl.
    by rewrite (register_struct_last r1 r2).
Qed.

Lemma X3_registrations_compose_witness :
  let cl := New_struct stdout (plain_config lg.Warn) in
  let σ : store := {[ 1%positive := cl ]} in
  register_chain [RegError (Some (Func "e")); RegAlways (Some (Func "a"))]
    1%positive σ
  = register_chain [RegAlways (Some (Func "a")); RegError (Some (Func "e"))]
      1%positive σ
  ∧ register_chain [RegAlways (Some (Func "old")); RegAlways None]
      1%positive σ
    = register_chain [RegAlways None] 1%positive σ.
Proof.
  intros cl σ. split.
  - apply (proj1 (X3_registrations_compose (RegError (Some (Func "e")))
                    (RegAlways (Some (Func "a"))) [] ∅ 1%positive cl)).
    discriminate.
  - apply (proj2 (X3_registrations_compose (RegAlways (Some (Func "old")))
                    (RegAlways None) [] ∅ 1%positive cl)).
    reflexivity.
Defined.

(** X4. What is registered is what [Trace] calls. After a registration the
    run through the returned pointer calls, at the site of that method, the
    function just given and no other (a nil function: none), whatever was
    registered there before: the always callback on every statement, the
    slow callback exactly when the duration given is not zero and below the
    elapsed time, the error callback exactly on an error that is not
    not-found or is considered; and [ConsiderNotFound(b)] makes the
    registered error callback fire on the sentinel exactly when [b]. *)
Theorem X4_registered_is_called rt (σ : store) p cl begin fc err :
  let run r :=
    match register r p (<[p := cl]> σ) with
    | Some (q, σ') => Trace_at rt σ' q begin fc err
    | None => None
    end in
  (∀ f, ∃ es, run (RegAlways f) = Some es
     ∧ ∀ f' g, Call AlwaysSite f' g ∈ es ↔
               f = Some f' ∧ g = trace_infos rt begin fc err)
  ∧ (∀ f d, ∃ es, run (RegSlow f d) = Some es
       ∧ ∀ f' g, Call SlowSite f' g ∈ es ↔
                 f = Some f' ∧ d ≠ 0 ∧ d < time_Since rt begin
                 ∧ g = trace_infos rt begin fc err)
  ∧ (∀ f, ∃ es, run (RegError f) = Some es
       ∧ ∀ f' g, Call ErrorSite f' g ∈ es ↔
                 f = Some f' ∧ err ≠ None
                 ∧ (errors_Is err (Some ErrRecordNotFound) = false
                    ∨ considerRecordNotFoundError (execution cl) = true)
                 ∧ g = trace_infos rt begin fc err)
  ∧ (∀ b, ∃ es, run (RegConsiderNotFound b) = Some es
       ∧ ∀ f' g, Call ErrorSite f' g ∈ es ↔
                 errors (execution cl) = Some f' ∧ err ≠ None
                 ∧ (errors_Is err (Some ErrRecordNotFound) = false
                    ∨ b = true)
                 ∧ g = trace_infos rt begin fc err).
Proof.
  intros run.
  assert (∀ r, run r = Some (Trace rt (register_struct r cl) begin fc err))
    as Hrun.
  { intros r. unfold run.
    rewrite (register_in_place r _ p cl) by apply lookup_insert_eq.
    unfold Trace_at. by rewrite lookup_insert_eq. }
  repeat split; intros; eexists; (split; [apply Hrun|]);
    intros f' g; rewrite elem_of_Trace_call;
    unfold spec_slow_trigger, spec_error_trigger; simpl; tauto.
Qed.

(** ** [LogMode] and [FixTriggers] *)

(** X5. The logger [LogMode] returns is a snapshot: a registration or a
    [SetSlowSqlThreshold] made afterwards through the receiver changes the
    receiver and leaves the copy, and every run through the copy, as it
    was. The logger [FixTriggers] returns is the receiver itself: the same
    registration is seen through it. *)
Theorem X5_LogMode_snapshot r t level (σ : store) d1 cl :
  ∃ d2 σ1 σ2 σ3,
    LogMode d1 level (<[d1 := cl]> σ) = Some (d2, σ1)
    ∧ d2 ≠ d1
    ∧ register r d1 σ1 = Some (d1, σ2)
    ∧ SetSlowSqlThreshold d1 t σ2 = Some σ3
    ∧ σ3 !! d1
      = Some (with_config (set_SlowThreshold t) (register_struct r cl))
    ∧ σ3 !! d2 = σ1 !! d2
    ∧ σ3 !! d2 = Some (with_config (set_LogLevel level) cl)
    ∧ (∀ rt begin fc err,
         Trace_at rt σ3 d2 begin fc err = Trace_at rt σ1 d2 begin fc err)
    ∧ (∀ rt begin fc err,
         Trace_at rt σ2 (FixTriggers d1) begin fc err
         = Some (Trace rt (register_struct r cl) begin fc err)).
Proof.
  set (σ0 := <[d1 := cl]> σ).
  set (d2 := fresh (dom σ0)).
  assert (σ0 !! d1 = Some cl) as Hd1 by apply lookup_insert_eq.
  assert (d2 ≠ d1) as Hne.
  { intros Heq. pose proof (is_fresh (dom σ0)) as Hfresh.
    apply not_elem_of_dom in Hfresh. fold d2 in Hfresh. congruence. }
  set (σ1 := <[d2 := with_config (set_LogLevel level) cl]> σ0).
  set (σ2 := <[d1 := register_struct r cl]> σ1).
  set (σ3 := <[d1 := with_config (set_SlowThreshold t)
                       (register_struct r cl)]> σ2).
  exists d2, σ1, σ2, σ3.
  assert (σ1 !! d1 = Some cl) as Hσ1.
  { unfold σ1. by rewrite lookup_insert_ne. }
  assert (σ3 !! d2 = Some (with_config (set_LogLevel level) cl)) as Hσ3.
  { unfold σ3, σ2, σ1.
    rewrite !lookup_insert_ne by done. apply lookup_insert_eq. }
  assert (σ1 !! d2 = Some (with_config (set_LogLevel level) cl)) as Hσ1'.
  { apply lookup_insert_eq. }
  split; [unfold LogMode; by rewrite Hd1|].
  split; [done|].
  split; [by apply register_in_place|].
  split.
  { unfold SetSlowSqlThreshold, σ2. by rewrite lookup_insert_eq. }
  split; [apply lookup_insert_eq|].
  split; [by rewrite Hσ3, Hσ1'|].
  split; [done|].
  split.
  - intros rt begin fc err. unfold Trace_at. by rewrite Hσ3, Hσ1'.
  - intros rt begin fc err. unfold Trace_at, FixTriggers, σ2.
    by rewrite lookup_insert_eq.
Qed.

(** ** [New] *)

(** X6. [New] stores the struct at an address the store did not hold and
    leaves the others as they are; the struct has the writer and the
    configuration given, unchanged, and no trigger: a run of [Trace] on it
    calls nothing and has at most one event, a line on the writer given. *)
Theorem X6_New_fresh_without_triggers w cfg (σ : store) rt begin fc err :
  σ !! (New w cfg σ).1 = None
  ∧ (New w cfg σ).2 !! (New w cfg σ).1 = Some (New_struct w cfg)
  ∧ delete (New w cfg σ).1 (New w cfg σ).2 = σ
  ∧ writer (New_struct w cfg) = w
  ∧ config (New_struct w cfg) = cfg
  ∧ execution (New_struct w cfg) = mkExecution None None 0 None false
  ∧ calls (Trace rt (New_struct w cfg) begin fc err) = []
  ∧ (length (Trace rt (New_struct w cfg) begin fc err) ≤ 1)%nat
  ∧ writers (Trace rt (New_struct w cfg) begin fc err)
    = (λ _, w) <$> Trace rt (New_struct w cfg) begin fc err.
Proof.
  assert (σ !! fresh (dom σ) = None) as Hfresh.
  { apply not_elem_of_dom, is_fresh. }
  assert (execution (New_struct w cfg) = mkExecution None None 0 None false)
    as Hex.
  { unfold New_struct. by destruct (Colorful cfg). }
  assert (writer (New_struct w cfg) = w) as Hw.
  { unfold New_struct. by destruct (Colorful cfg). }
  assert (spec_triggers rt (New_struct w cfg) begin fc err = []) as Htr.
  { unfold spec_triggers. rewrite Hex. simpl.
    by repeat case_decide. }
  unfold New. simpl.
  split; [done|]. split; [apply lookup_insert_eq|].
  split; [rewrite delete_insert_eq; by apply delete_id|].
  split; [done|].
  split; [unfold New_struct; by destruct (Colorful cfg)|].
  split; [done|].
  split; [by rewrite calls_Trace|].
  rewrite Trace_steps, Htr. simpl. unfold spec_line.
  case_decide; [split; (done || simpl; lia)|].
  destruct (spec_select_branch _ _ _) as [[]|]; simpl; rewrite ?Hw;
    split; (done || lia).
Qed.

(** X7. A logger at level Silent or below (the zero value of [Config] has
    level 0) prints nothing: [Info], [Warn] and [Error] do nothing, a run
    of [Trace] consists of callback invocations only, and on a logger
    fresh from [New] a run of [Trace] is empty. *)
Theorem X7_silent_prints_nothing rt l msg data begin fc err
    (Hlevel : LogLevel (config l) ≤ lg.Silent) :
  Info rt l msg data = []
  ∧ Warn rt l msg data = []
  ∧ Error rt l msg data = []
  ∧ lines (Trace rt l begin fc err) = []
  ∧ Trace rt l begin fc err = calls (Trace rt l begin fc err)
  ∧ Trace rt (New_struct (writer l) (config l)) begin fc err = [].
Proof.
  unfold lg.Silent in Hlevel.
  assert (∀ l', LogLevel (config l') = LogLevel (config l) →
                spec_line rt l' begin fc err = []) as Hline.
  { intros l' Heq. unfold spec_line. rewrite decide_True; [done|].
    rewrite Heq. unfold lg.Silent. lia. }
  split; [|split; [|split]].
  - unfold Info, lg.Info. rewrite bool_decide_eq_false_2; [done|lia].
  - unfold Warn, lg.Warn. rewrite bool_decide_eq_false_2; [done|lia].
  - unfold Error, lg.Error. rewrite bool_decide_eq_false_2; [done|lia].
  - split; [by rewrite lines_Trace, Hline|].
    split.
    + by rewrite calls_Trace, Trace_steps, Hline, app_nil_r.
    + rewrite Trace_steps, Hline, app_nil_r.
      * unfold spec_triggers, New_struct.
        destruct (Colorful (config l)); simpl; by repeat case_decide.
      * unfold New_struct. by destruct (Colorful (config l)).
Qed.

Lemma X7_silent_prints_nothing_witness :
  let l := with_execution (λ _, all_triggers)
             (New_struct stdout (mkConfig 0 false false 0)) in
  Info (runtime_at 5) l "hello" [] = []
  ∧ Trace (runtime_at 5) (New_struct stdout (mkConfig 0 false false 0))
      0 (select_users 1) (Some (errors_New 2 "duplicate key")) = [].
Proof.
  intros l.
  assert (LogLevel (config l) ≤ lg.Silent) as Hlevel by (by vm_compute).
  destruct (X7_silent_prints_nothing (runtime_at 5) l "hello" [] 0
              (select_users 1) (Some (errors_New 2 "duplicate key")) Hlevel)
    as (Hinfo & _ & _ & _ & _ & Hnew).
  split; [exact Hinfo|exact Hnew].
Defined.

(** ** The templates of [New] *)

Lemma select_error_branch l elapsed err :
  spec_select_branch l elapsed err = Some ErrorBranch →
  spec_error_branch l err.
Proof. unfold spec_select_branch. by repeat case_decide. Qed.

(** X8. On a logger that has the templates [New] gives (with colors or
    without), every [Printf] of a run of [Trace] passes exactly one
    argument per verb of its format, each of a kind the verb prints: the
    call site and the statement for [%s], the error (never nil there) or
    the slow message for [%s], the duration for [%.3f], the row count or
    its placeholder for [%v]. *)
Theorem X8_Trace_lines_match_templates rt l w0 cfg0 begin fc err
    (Htemplates : templates l = templates (New_struct w0 cfg0)) :
  Forall well_formatted (Trace rt l begin fc err).
Proof.
  rewrite Trace_steps. apply Forall_app. split.
  { eapply Forall_impl; [apply Forall_is_call_triggers|]. by intros []. }
  injection Htemplates as _ _ _ Htrace Herr Hwarn.
  unfold spec_line. case_decide; [constructor|].
  destruct (spec_select_branch _ _ _) as [[]|] eqn:Hsel; [| | |constructor];
    constructor; try constructor; simpl.
  - apply select_error_branch in Hsel as (Hnil & _).
    destruct err as [e|]; [|done].
    rewrite Herr. unfold spec_rows, New_struct.
    destruct (Colorful cfg0); case_decide; vm_compute;
      repeat constructor.
  - rewrite Hwarn. unfold spec_rows, New_struct.
    destruct (Colorful cfg0); case_decide; vm_compute;
      repeat constructor.
  - rewrite Htrace. unfold spec_rows, New_struct.
    destruct (Colorful cfg0); case_decide; vm_compute;
      repeat constructor.
Qed.

Lemma X8_Trace_lines_match_templates_witness :
  Forall well_formatted
    (Trace (runtime_at (250 * time.Millisecond))
       (with_execution (λ _, all_triggers) (New_struct stdout Default_config))
       0 (select_users (-1)) (Some ErrRecordNotFound)).
Proof.
  apply (X8_Trace_lines_match_templates _ _ stdout Default_config).
  reflexivity.
Defined.




(** X10. The flag [Colorful] changes colors only: each of the six
    templates [New] builds with colors is, once the color sequences are
    taken out, the template it builds without; and those hold no color
    sequence. Without colors the error and the warn trace template are the
    same string. *)
Theorem X10_colors_only w cfg :
  uncolored <$> templates (New_struct w cfg)
  = templates (New_struct w (mkConfig (SlowThreshold cfg) false
                               (IgnoreRecordNotFoundError cfg)
                               (LogLevel cfg)))
  ∧ uncolored <$> (uncolored <$> templates (New_struct w cfg))
    = uncolored <$> templates (New_struct w cfg)
  ∧ traceErrStr (New_struct w (mkConfig (SlowThreshold cfg) false
                                 (IgnoreRecordNotFoundError cfg)
                                 (LogLevel cfg)))
    = traceWarnStr (New_struct w (mkConfig (SlowThreshold cfg) false
                                    (IgnoreRecordNotFoundError cfg)
                                    (LogLevel cfg))).
Proof.
  destruct cfg as [t [] ign level];
    (split; [|split]); vm_compute; reflexivity.
Qed.

(** ** The shape of a run of [Trace] *)

Lemma sites_Trace_sublist rt l begin fc err :
  sites (Trace rt l begin fc err)
  `sublist_of` [AlwaysSite; SlowSite; ErrorSite].
Proof.
  rewrite Trace_steps, sites_app.
  assert (sites (spec_line rt l begin fc err) = []) as ->.
  { unfold spec_line. case_decide; [done|].
    by destruct (spec_select_branch _ _ _) as [[]|]. }
  rewrite app_nil_r. apply sites_triggers_sublist.
Qed.

(** X11. Every callback invoked in one run of [Trace] receives the same
    record: the call site, the row count as [fc] returned it (-1 stays -1,
    the placeholder is for the printed line only), the elapsed time, the
    statement, and the error as it was passed in. No site is invoked twice
    in a run. *)
Theorem X11_callbacks_get_the_record rt l begin fc err :
  Forall (λ e, ∃ s f,
            e = Call s f
                  (mkGormInfos (FileWithLineNum rt) (fc ()).2
                     (millis_of_nanos (time_Since rt begin)) (fc ()).1 err))
    (calls (Trace rt l begin fc err))
  ∧ NoDup (sites (Trace rt l begin fc err))
  ∧ (length (calls (Trace rt l begin fc err)) ≤ 3)%nat.
Proof.
  split; [|split].
  - rewrite calls_Trace. unfold spec_triggers, fire, trace_infos.
    destruct (always (execution l)), (warns (execution l)),
      (errors (execution l)); repeat case_decide; simpl;
      repeat constructor; eauto.
  - eapply sublist_NoDup; [|apply sites_Trace_sublist].
    by apply (bool_decide_unpack _).
  - rewrite calls_Trace. unfold spec_triggers, fire.
    destruct (always (execution l)), (warns (execution l)),
      (errors (execution l)); repeat case_decide; simpl; lia.
Qed.

(** X12. A run of [Trace] prints to the logger's own writer only, at most
    one line, and has at most four events in all. *)
Theorem X12_one_line_to_own_writer rt l begin fc err :
  Forall (λ w, w = writer l) (writers (Trace rt l begin fc err))
  ∧ (length (lines (Trace rt l begin fc err)) ≤ 1)%nat
  ∧ (length (Trace rt l begin fc err) ≤ 4)%nat.
Proof.
  assert (length (spec_triggers rt l begin fc err) ≤ 3)%nat as Hcalls.
  { unfold spec_triggers, fire.
    destruct (always (execution l)), (warns (execution l)),
      (errors (execution l)); repeat case_decide; simpl; lia. }
  assert (length (spec_line rt l begin fc err) ≤ 1)%nat as Hlines.
  { unfold spec_line. case_decide; [simpl; lia|].
    destruct (spec_select_branch _ _ _) as [[]|]; simpl; lia. }
  split; [|split].
  - rewrite Trace_steps. unfold writers. rewrite omap_app.
    apply Forall_app. split.
    + assert (omap (λ e, match e with
                         | Printf w _ _ => Some w
                         | Call _ _ _ => None
                         end) (spec_triggers rt l begin fc err) = []) as ->.
      { unfold spec_triggers, fire.
        destruct (always (execution l)), (warns (execution l)),
          (errors (execution l)); by repeat case_decide. }
      constructor.
    + unfold spec_line. case_decide; [constructor|].
      destruct (spec_select_branch _ _ _) as [[]|]; by repeat constructor.
  - by rewrite lines_Trace.
  - rewrite Trace_steps, length_app. lia.
Qed.

(** X13. Printing and triggering do not meet: the calls of a run are
    decided by the trigger fields alone (two loggers with the same
    [Execution] make the same calls, whatever their configuration, writer
    and templates), and the lines by the rest alone (registering or
    removing callbacks never changes what is printed). *)
Theorem X13_calls_and_lines_apart rt l l' begin fc err :
  (execution l = execution l' →
   calls (Trace rt l begin fc err) = calls (Trace rt l' begin fc err))
  ∧ (∀ f, lines (Trace rt (with_execution f l) begin fc err)
          = lines (Trace rt l begin fc err))
  ∧ (∀ f, calls (Trace rt (with_config f l) begin fc err)
          = calls (Trace rt l begin fc err)).
Proof.
  split; [|split].
  - intros Hex. rewrite !calls_Trace.
    destruct l, l'. simpl in Hex. by subst.
  - intros f. by rewrite !lines_Trace.
  - intros f. by rewrite !calls_Trace.
Qed.

Lemma X13_calls_and_lines_apart_witness :
  let l := with_execution (λ _, all_triggers)
             (New_struct stdout (plain_config lg.Silent)) in
  let l' := with_execution (λ _, all_triggers)
              (New_struct (WriterRef 2) Default_config) in
  calls (Trace (runtime_at (300 * time.Millisecond)) l 0 (select_users 3)
           None)
  = calls (Trace (runtime_at (300 * time.Millisecond)) l' 0
             (select_users 3) None).
Proof.
  intros l l'.
  apply (proj1 (X13_calls_and_lines_apart
                  (runtime_at (300 * time.Millisecond)) l l' 0
                  (select_users 3) None)).
  reflexivity.
Defined.

(** ** Levels *)

(** X14. Above level Info (the level is an integer, 5 is a level) the
    info-trace line is gone though [Info] itself prints: a statement without
    error leaves the slow line if it is slow for the formatting threshold,
    and no line otherwise. *)
Theorem X14_above_Info rt l msg data begin fc
    (Hlevel : lg.Info < LogLevel (config l)) :
  Info rt l msg data
  = [Printf (writer l) (infoStr l +:+ msg)
       (VString (FileWithLineNum rt) :: data)]
  ∧ lines (Trace rt l begin fc None)
    = if decide (SlowThreshold (config l) < time_Since rt begin
                 ∧ SlowThreshold (config l) ≠ 0)
      then [spec_branch_line rt l SlowBranch (time_Since rt begin)
              (fc ()).1 (fc ()).2 None]
      else [].
Proof.
  unfold lg.Info in Hlevel. split.
  - unfold Info, lg.Info. rewrite bool_decide_eq_true_2; [done|lia].
  - rewrite lines_Trace. unfold spec_line, spec_select_branch,
      spec_error_branch, spec_slow_branch, spec_info_branch,
      lg.Silent, lg.Warn, lg.Info.
    repeat case_decide; try done; try lia; intuition lia.
Qed.

Lemma X14_above_Info_witness :
  let l := New_struct stdout (plain_config 5) in
  Info (runtime_at 10) l "hello" []
  = [Printf stdout (infoStr l +:+ "hello") [VString "main.go:42"]]
  ∧ lines (Trace (runtime_at 10) l 0 (select_users 3) None) = [].
Proof.
  intros l.
  assert (lg.Info < LogLevel (config l)) as Hlevel by (by vm_compute).
  destruct (X14_above_Info (runtime_at 10) l "hello" [] 0 (select_users 3)
              Hlevel) as [Hinfo Hlines].
  split; [exact Hinfo|exact Hlines].
Defined.

(** X15. At a level from Silent to Info, raising the level never takes a
    trace line away nor changes it: if a run prints a line at one level, it
    prints that same line at every higher level up to Info. *)
Theorem X15_lines_grow_with_level rt l level level' begin fc err
    (Hle : level ≤ level') (Hinfo : level' ≤ lg.Info)
    (Hprinted : lines (Trace rt (with_config (set_LogLevel level) l)
                         begin fc err) ≠ []) :
  lines (Trace rt (with_config (set_LogLevel level') l) begin fc err)
  = lines (Trace rt (with_config (set_LogLevel level) l) begin fc err).
Proof.
  revert Hprinted. rewrite !lines_Trace.
  unfold lg.Info in Hinfo.
  unfold spec_line, spec_select_branch, spec_error_branch, spec_slow_branch,
    spec_info_branch, lg.Silent, lg.Error, lg.Warn, lg.Info. simpl.
  intros Hprinted.
  repeat case_decide; try done; try lia; exfalso; destruct_and?;
    match goal with
    | H : ¬ _ |- False =>
        solve [apply H; repeat split; (assumption || lia)]
    end.
Qed.

Lemma X15_lines_grow_with_level_witness :
  let l := New_struct stdout (plain_config lg.Silent) in
  let run level :=
    lines (Trace (runtime_at (250 * time.Millisecond))
             (with_config (set_LogLevel level) l) 0 (select_users 3) None) in
  run lg.Info = run lg.Warn.
Proof.
  intros l run.
  apply (X15_lines_grow_with_level (runtime_at (250 * time.Millisecond)) l
           lg.Warn lg.Info 0 (select_users 3) None).
  - by vm_compute.
  - by vm_compute.
  - discriminate.
Defined.

(** ** Which errors are not-found *)





(** ** [SetSlowSqlThreshold] and [LogMode] again *)


(** X18. [LogMode] on the logger [LogMode] returned gives a third logger,
    at a third address, that differs from the first in the level alone: of
    two [LogMode] in a row the second decides the level, and all three
    structs stay in the store. With the receiver's own level the copy is
    equal to the receiver. On a pointer that holds no struct the method
    fails. *)
Theorem X18_LogMode_chain a b (σ : store) d1 cl :
  ∃ d2 d3 σ1 σ2,
    LogMode d1 a (<[d1 := cl]> σ) = Some (d2, σ1)
    ∧ LogMode d2 b σ1 = Some (d3, σ2)
    ∧ NoDup [d1; d2; d3]
    ∧ σ2 !! d1 = Some cl
    ∧ σ2 !! d2 = Some (with_config (set_LogLevel a) cl)
    ∧ σ2 !! d3 = Some (with_config (set_LogLevel b) cl)
    ∧ with_config (set_LogLevel (LogLevel (config cl))) cl = cl
    ∧ LogMode d1 a (delete d1 σ) = None.
Proof.
  set (σ0 := <[d1 := cl]> σ).
  set (d2 := fresh (dom σ0)).
  set (σ1 := <[d2 := with_config (set_LogLevel a) cl]> σ0).
  set (d3 := fresh (dom σ1)).
  exists d2, d3, σ1, (<[d3 := with_config (set_LogLevel b) cl]> σ1).
  assert (σ0 !! d1 = Some cl) as Hd1 by apply lookup_insert_eq.
  assert (σ0 !! d2 = None) as Hd2 by apply not_elem_of_dom, is_fresh.
  assert (σ1 !! d3 = None) as Hd3 by apply not_elem_of_dom, is_fresh.
  assert (d2 ≠ d1) as H21 by congruence.
  assert (σ1 !! d1 = Some cl) as Hσ1.
  { unfold σ1. by rewrite lookup_insert_ne. }
  assert (σ1 !! d2 = Some (with_config (set_LogLevel a) cl)) as Hσ1'.
  { apply lookup_insert_eq. }
  assert (d3 ≠ d1) as H31 by congruence.
  assert (d3 ≠ d2) as H32 by congruence.
  split; [unfold LogMode; by rewrite Hd1|].
  split; [unfold LogMode; by rewrite Hσ1'|].
  split.
  { repeat constructor; rewrite ?elem_of_cons, ?elem_of_nil; intuition. }
  split; [by rewrite lookup_insert_ne|].
  split; [by rewrite lookup_insert_ne|].
  split; [apply lookup_insert_eq|].
  split; [by destruct cl as [? [] ? ? ? ? ? ? ?]|].
  unfold LogMode. by rewrite lookup_delete_eq.
Qed.
